(** * dbt Manifest Differ: a shallow embedding of [differ.py]

    The script compares a production manifest with a branch manifest.
    Python dictionaries are finite maps ([gmap]), Python sets are finite
    sets ([gset]), the Streamlit calls and the file reads are events of
    a trace, and exceptions are values of an error type.  The libraries
    the script calls (dbt, jsondiff, pandas) and the helper modules
    [functions.tidy] and [functions.flatten] are fields of a record of
    collaborators that every definition takes as an argument. *)

From Stdlib Require Import ZArith Ascii String.
From stdpp Require Import gmap strings list fin_maps pretty.

Local Open Scope string_scope.
Local Open Scope list_scope.

(** ** Python values *)

(** The values a node's [to_dict()] holds: the JSON fragment of Python
    (floats are left out). *)
#[warnings="-register-all"]
Inductive pyval : Type :=
| PNone
| PBool (b : bool)
| PInt (n : Z)
| PStr (s : string)
| PList (xs : list pyval)
| PDict (kvs : list (string * pyval)).

(** [d.get(k)] on the items of a nested dictionary. *)
Fixpoint assoc_get (k : string) (kvs : list (string * pyval)) : option pyval :=
  match kvs with
  | [] => None
  | (k', v) :: rest => if String.eqb k k' then Some v else assoc_get k rest
  end.

(** Python's [==] on these values: deep structural equality, with
    [True == 1] and [False == 0], lists compared position by position
    and dictionaries compared key by key whatever their order
    (a dictionary holds each key once). *)
Fixpoint py_eq (a b : pyval) : bool :=
  match a, b with
  | PNone, PNone => true
  | PBool x, PBool y => Bool.eqb x y
  | PBool x, PInt n => Z.eqb (Z.b2z x) n
  | PInt n, PBool x => Z.eqb n (Z.b2z x)
  | PInt m, PInt n => Z.eqb m n
  | PStr s, PStr t => String.eqb s t
  | PList xs, PList ys =>
      (fix go (xs ys : list pyval) : bool :=
         match xs, ys with
         | [], [] => true
         | x :: xs', y :: ys' => py_eq x y && go xs' ys'
         | _, _ => false
         end) xs ys
  | PDict d, PDict e =>
      Nat.eqb (length d) (length e) &&
      (fix every (d : list (string * pyval)) : bool :=
         match d with
         | [] => true
         | (k, v) :: d' =>
             match assoc_get k e with
             | Some v' => py_eq v v'
             | None => false
             end && every d'
         end) d
  | _, _ => false
  end.

(** Python's [!=]. *)
Definition py_ne (a b : pyval) : bool := negb (py_eq a b).

(** ** The node differ (lines 115-129) *)

Section NodeDiffer.

(** [jsondiff.diff(a, b, syntax='symmetric', marshal=True)]. *)
Variable jsondiff_diff : pyval → pyval → pyval.

(** [properties_to_ignore], the list the multiselect returns. *)
Variable properties_to_ignore : list string.

Variables left_dict right_dict : gmap string pyval.

(** [all_keys = set(left_dict.keys()) | set(right_dict.keys())] *)
Definition all_keys : gset string := dom left_dict ∪ dom right_dict.

(** The condition of the comprehension:
    [k not in properties_to_ignore and (k not in right_dict or
     k not in left_dict or left_dict[k] != right_dict[k])].
    The two subscripts are evaluated only when both keys are there. *)
Definition diff_condition (k : string) : bool :=
  bool_decide (k ∉ properties_to_ignore) &&
  match right_dict !! k, left_dict !! k with
  | None, _ => true
  | Some _, None => true
  | Some r, Some l => py_ne l r
  end.

(** [d.get(k, None)] *)
Definition dict_get (d : gmap string pyval) (k : string) : pyval :=
  default PNone (d !! k).

(** The value of the comprehension at [k]. *)
Definition diff_entry (k : string) : pyval :=
  jsondiff_diff (dict_get left_dict k) (dict_get right_dict k).

(** [diffs = {k: jsondiff.diff(...) for k in all_keys if ...}] *)
Definition diffs : gmap string pyval :=
  list_to_map
    ((λ k, (k, diff_entry k)) <$> filter (λ k, diff_condition k = true) (elements all_keys)).

End NodeDiffer.

Arguments all_keys left_dict right_dict : assert.
Arguments dict_get d k : assert.

(** Two records agree outside the ignored fields: every key of either
    record that is not ignored is a key of both, with [==] values. *)
Definition same_outside (ignored : list string)
    (left_dict right_dict : gmap string pyval) : bool :=
  forallb
    (λ k, bool_decide (k ∈ ignored) ||
          match left_dict !! k, right_dict !! k with
          | Some l, Some r => py_eq l r
          | _, _ => false
          end)
    (elements (all_keys left_dict right_dict)).

(** ** Manifests, nodes and the state comparator *)

(** A node of a manifest, as far as the script looks at it:
    [node.to_dict()] and [node.depends_on.macros]. *)
Record node : Type := Node {
  to_dict : gmap string pyval;
  depends_on_macros : list string
}.

(** [WritableManifest]: the script reads [manifest.nodes] only. *)
Record WritableManifest : Type := Manifest {
  nodes : gmap string node
}.

(** [class MockPreviousState] (lines 15-17). *)
Record MockPreviousState : Type := mkMockPreviousState {
  manifest : WritableManifest
}.

(** dbt's [StateSelectorMethod]: [search(included_nodes, selector)],
    whose generator is read into a list, and [modified_macros], the
    list of changed macros (empty when there is none). *)
Record StateSelectorMethod : Type := mkStateSelectorMethod {
  search : gset string → string → list string;
  modified_macros : list string
}.

(** A [pandas.DataFrame] built from a flattened diff. *)
Record DataFrame : Type := mkDataFrame {
  df_rows : gmap string pyval
}.

(** ** Exceptions, events and runs *)

(** The exceptions ([Exception] subclasses) a run can raise. *)
Inductive exn : Type :=
| NameError (name : string)
| KeyError (key : string)
| OtherError (message : string).

(** What a run does to the outside: the files it opens and the
    Streamlit calls it makes, in order. *)
Inductive event : Type :=
| open_file (file_name : string)
| st_set_page_config
| st_title (body : string)
| st_info
| st_selectbox (label : string) (options : list string)
| st_multiselect (label : string) (options default : list string)
| st_warning (body : string)
| st_warning_large_seeds (skipped : gset string)
| st_bar_chart (data : gmap string nat)
| st_header (body : string)
| st_write (body : string)
| st_write_macros (macros : list string)
| st_write_depends_on (macros : list string)
| st_subheader (body : string)
| st_code (body : list string)
| st_columns (n : nat)
| st_json (body : gmap string pyval)
| st_dataframe (df : DataFrame)
| st_error_table (e : exn)
| st_divider.

(** A run: the events so far, and an exception or a value. *)
Definition run (A : Type) : Type := list event * (exn + A).

#[global] Instance run_ret : MRet run := λ A a, ([], inr a).

#[global] Instance run_bind : MBind run := λ A B f m,
  match m with
  | (t, inl e) => (t, inl e)
  | (t, inr a) => let '(t', r) := f a in (t ++ t', r)
  end.

Definition emit (ev : event) : run unit := ([ev], inr tt).

Definition raise {A : Type} (e : exn) : run A := ([], inl e).

(** The result of a call that prints nothing. *)
Definition call {A : Type} (r : exn + A) : run A := ([], r).

(** [try: body  except Exception as e: handler e] *)
Definition try_except {A : Type} (body : run A) (handler : exn → run A) : run A :=
  match body with
  | (t, inl e) => let '(t', r) := handler e in (t ++ t', r)
  | (t, inr a) => (t, inr a)
  end.

(** Reading a global name: [NameError] when it was never assigned. *)
Definition read_name {A : Type} (name : string) (value : option A) : run A :=
  match value with
  | Some v => mret v
  | None => raise (NameError name)
  end.

(** [d[key]] on a dictionary with string keys. *)
Definition getitem {A : Type} (d : gmap string A) (key : string) : run A :=
  match d !! key with
  | Some v => mret v
  | None => raise (KeyError key)
  end.

(** [for x in xs: body x] *)
Fixpoint for_each {A : Type} (xs : list A) (body : A → run unit) : run unit :=
  match xs with
  | [] => mret tt
  | x :: rest => body x;; for_each rest body
  end.

Definition trace {A : Type} (r : run A) : list event := r.1.
Definition outcome {A : Type} (r : run A) : exn + A := r.2.

(** ** The collaborators of the script *)

(** Everything the script gets from outside: the environment and the
    file system, the two widgets' current values, and the functions of
    [json], [functions.tidy], dbt, [jsondiff], [functions.flatten] and
    pandas that it calls. *)
Record world : Type := World {
  (** [os.getenv] *)
  os_getenv : string → option string;
  (** [os.path.exists] *)
  os_path_exists : string → bool;
  (** [json.load] of the opened file *)
  json_load : string → exn + pyval;
  (** [tidy.remove_large_seeds]: the pruned document and the ids of
      the seeds whose payload was removed *)
  remove_large_seeds : pyval → pyval * gset string;
  (** [WritableManifest.upgrade_schema_version] *)
  upgrade_schema_version : pyval → exn + WritableManifest;
  (** [StateSelectorMethod(manifest, previous_state, arguments)] *)
  new_StateSelectorMethod :
    WritableManifest → MockPreviousState → string → StateSelectorMethod;
  (** [jsondiff.diff(a, b, syntax='symmetric', marshal=True)] *)
  jsondiff_diff : pyval → pyval → pyval;
  (** [flatten_keys] *)
  flatten_keys : gmap string pyval → exn + gmap string pyval;
  (** [pd.DataFrame.from_dict(d, orient='index')] *)
  DataFrame_from_dict : gmap string pyval → exn + DataFrame;
  (** the value of the select box *)
  state_method : string;
  (** the value of the multiselect *)
  properties_to_ignore : list string
}.

(** ** The widgets' options (lines 33-45) *)

Definition state_options : list string :=
  [ "modified";
    "new";
    "modified.body";
    "modified.configs";
    "modified.persisted_descriptions";
    "modified.relation";
    "modified.macros";
    "modified.contract" ].

(** The options of the multiselect. *)
Definition ignore_options : list string :=
  [ "created_at"; "root_path"; "build_path"; "compiled_path"; "deferred";
    "schema"; "checksum"; "compiled_code"; "database"; "relation_name" ].

(** Its [default=] argument. *)
Definition ignore_default : list string :=
  [ "created_at"; "checksum"; "database"; "schema"; "relation_name";
    "compiled_path"; "root_path"; "build_path" ].

(** ** Loading the manifests (lines 46-76) *)

(** [load_manifest], with the module-level set [skipped_large_seeds]
    passed in and returned. *)
Definition load_manifest (w : world) (file_name : string)
    (skipped_large_seeds : gset string) : run (WritableManifest * gset string) :=
  emit (open_file file_name);;
  data ← call (json_load w file_name);
  let '(data, large_seeds) := remove_large_seeds w data in
  let skipped_large_seeds := skipped_large_seeds ∪ large_seeds in
  m ← call (upgrade_schema_version w data);
  mret (m, skipped_large_seeds).

Fixpoint ends_with_slash (s : string) : bool :=
  match s with
  | EmptyString => false
  | String c EmptyString => Ascii.eqb c "/"%char
  | String _ rest => ends_with_slash rest
  end.

Definition starts_with_slash (s : string) : bool :=
  match s with
  | String c _ => Ascii.eqb c "/"%char
  | EmptyString => false
  end.

(** [os.path.join] (POSIX), one more component. *)
Definition path_join2 (path b : string) : string :=
  if starts_with_slash b then b
  else if String.eqb path EmptyString || ends_with_slash path then path +:+ b
  else path +:+ "/" +:+ b.

Definition os_path_join (a : string) (rest : list string) : string :=
  foldl path_join2 a rest.

(** The global names that only some branches assign. *)
Record globals : Type := Globals {
  skipped_large_seeds : gset string;
  production_manifest : option WritableManifest;
  branch_manifest : option WritableManifest;
  not_found_files : option (list string)
}.

(** Truth value of [os.getenv(...)]: [None] and the empty string are
    false. *)
Definition truthy (value : option string) : option string :=
  match value with
  | Some s => if String.eqb s EmptyString then None else Some s
  | None => None
  end.

(** Lines 46-76: find the two manifest files and load them. *)
Definition find_manifests (w : world) : run globals :=
  let skipped_large_seeds : gset string := ∅ in
  match truthy (os_getenv w "DATACOVES__DBT_HOME") with
  | Some dbt_project_path =>
      let production_manifest_location :=
        os_path_join dbt_project_path ["logs"; "manifest.json"] in
      let branch_manifest_location :=
        os_path_join dbt_project_path ["target"; "manifest.json"] in
      let not_found_files : list string := [] in
      if os_path_exists w production_manifest_location
         && os_path_exists w branch_manifest_location
      then
        '(production_manifest, skipped_large_seeds) ←
          load_manifest w production_manifest_location skipped_large_seeds;
        '(branch_manifest, skipped_large_seeds) ←
          load_manifest w branch_manifest_location skipped_large_seeds;
        mret (Globals skipped_large_seeds (Some production_manifest)
                (Some branch_manifest) (Some not_found_files))
      else
        let not_found_files :=
          if negb (os_path_exists w production_manifest_location)
          then not_found_files ++ ["Production manifest file"]
          else not_found_files in
        let not_found_files :=
          if negb (os_path_exists w branch_manifest_location)
          then not_found_files ++ ["Branch manifest file"]
          else not_found_files in
        let error_message :=
          "Manifest files not found: " +:+ String.concat ", " not_found_files
          +:+ ". Please make sure the paths are correct." in
        emit (st_warning error_message);;
        mret (Globals skipped_large_seeds None None (Some not_found_files))
  | None =>
      emit (st_warning "DATACOVES__DBT_HOME environment variable not set.");;
      mret (Globals skipped_large_seeds None None None)
  end.

(** ** The classification loop (lines 87-96) *)

(** The body of [for node in results]. *)
Definition add_reason (state_option : string)
    (reasons : gmap string (list string)) (node : string) : gmap string (list string) :=
  match reasons !! node with
  | Some l => <[node := l ++ [state_option]]> reasons
  | None => <[node := [state_option]]> reasons
  end.

(** The body of [for state_option in state_options]. *)
Definition classify_option (state_comparator : StateSelectorMethod)
    (included_nodes : gset string)
    (acc : gmap string nat * gmap string (list string))
    (state_option : string) : gmap string nat * gmap string (list string) :=
  let results := search state_comparator included_nodes state_option in
  let reasons := foldl (add_reason state_option) acc.2 results in
  (<[state_option := length results]> acc.1, reasons).

(** The loop over a list of options, from given dictionaries. *)
Definition classify_from (state_comparator : StateSelectorMethod)
    (included_nodes : gset string)
    (acc : gmap string nat * gmap string (list string))
    (options : list string) : gmap string nat * gmap string (list string) :=
  foldl (classify_option state_comparator included_nodes) acc options.

Definition classify (state_comparator : StateSelectorMethod)
    (included_nodes : gset string) : gmap string nat * gmap string (list string) :=
  classify_from state_comparator included_nodes (∅, ∅) state_options.

Definition state_inclusion_counts (state_comparator : StateSelectorMethod)
    (included_nodes : gset string) : gmap string nat :=
  (classify state_comparator included_nodes).1.

Definition state_inclusion_reasons_by_node (state_comparator : StateSelectorMethod)
    (included_nodes : gset string) : gmap string (list string) :=
  (classify state_comparator included_nodes).2.

(** ** The per-node display (lines 106-162) *)

(** Truth value of a Python list. *)
Definition nonempty {A : Type} (l : list A) : bool :=
  match l with [] => false | _ :: _ => true end.

(** Lines 146-151: the flat table, inside [try] / [except Exception]. *)
Definition flat_table (w : world) (diffs : gmap string pyval) : run unit :=
  try_except
    (flattened_diff ← call (flatten_keys w diffs);
     df ← call (DataFrame_from_dict w flattened_diff);
     emit (st_dataframe df))
    (λ e, emit (st_error_table e)).

(** Lines 113-151: both nodes are there. *)
Definition show_both (w : world) (state_comparator : StateSelectorMethod)
    (reasons : gmap string (list string)) (unique_id : string)
    (left_node right_node : node) : run unit :=
  let left_dict := to_dict left_node in
  let right_dict := to_dict right_node in
  let diffs := diffs (jsondiff_diff w) (properties_to_ignore w) left_dict right_dict in
  emit (st_write "##### State selectors that find this node:");;
  found ← getitem reasons unique_id;
  emit (st_code found);;
  (if nonempty (depends_on_macros left_node)
      && nonempty (modified_macros state_comparator)
   then emit (st_write_depends_on (depends_on_macros left_node))
   else mret tt);;
  emit (st_columns 2);;
  emit (st_write "##### JSON tree of diffs:");;
  emit (st_json diffs);;
  emit (st_write "##### JSON tree of all elements in right node:");;
  emit (st_json right_dict);;
  emit (st_write "##### Flat table of diffs:");;
  flat_table w diffs.

(** The body of [for unique_id in selected_nodes].  A node object is
    true and [None] is false, so [left_node and right_node] holds when
    both lookups find a node. *)
Definition show_node (w : world) (branch_manifest production_manifest : WritableManifest)
    (state_comparator : StateSelectorMethod)
    (reasons : gmap string (list string)) (unique_id : string) : run unit :=
  let left_node := nodes branch_manifest !! unique_id in
  let right_node := nodes production_manifest !! unique_id in
  emit (st_subheader unique_id);;
  match left_node, right_node with
  | Some left_node, Some right_node =>
      show_both w state_comparator reasons unique_id left_node right_node
  | None, _ =>
      emit (st_warning "Missing from branch manifest (deleted node)")
  | Some _, None =>
      emit (st_warning "Missing from production manifest (new node)");;
      emit (st_write "State methods that pick this node up:");;
      found ← getitem reasons unique_id;
      emit (st_code found)
  end;;
  emit st_divider.

(** ** The comparison (lines 78-165) *)

(** [f"{len(selected_nodes)} Selected node{'s' if ... != 1 else ''}"] *)
Definition selected_header (n : nat) : string :=
  pretty n +:+ " Selected node" +:+ (if Nat.eqb n 1 then EmptyString else "s").

(** Lines 80-82: the candidate ids and the comparator. *)
Definition included_nodes (branch_manifest : WritableManifest) : gset string :=
  dom (nodes branch_manifest).

Definition state_comparator (w : world)
    (branch_manifest production_manifest : WritableManifest) : StateSelectorMethod :=
  let previous_state := mkMockPreviousState production_manifest in
  new_StateSelectorMethod w branch_manifest previous_state EmptyString.

(** Line 99. *)
Definition selected_nodes (w : world)
    (branch_manifest production_manifest : WritableManifest) : list string :=
  search (state_comparator w branch_manifest production_manifest)
    (included_nodes branch_manifest) (state_method w).

(** Lines 79-162: the branch taken when [not_found_files] is empty. *)
Definition compare_manifests (w : world) (g : globals) : run unit :=
  branch_manifest ← read_name "branch_manifest" (branch_manifest g);
  let included_nodes := included_nodes branch_manifest in
  production_manifest ← read_name "production_manifest" (production_manifest g);
  let state_comparator := state_comparator w branch_manifest production_manifest in
  (if decide (0 < size (skipped_large_seeds g))
   then emit (st_warning_large_seeds (skipped_large_seeds g))
   else mret tt);;
  let '(state_inclusion_counts, state_inclusion_reasons_by_node) :=
    classify state_comparator included_nodes in
  emit (st_bar_chart state_inclusion_counts);;
  let selected_nodes := search state_comparator included_nodes (state_method w) in
  (if nonempty (modified_macros state_comparator)
   then emit (st_header "Modified macros");;
        emit (st_write_macros (modified_macros state_comparator))
   else mret tt);;
  emit (st_header (selected_header (length selected_nodes)));;
  for_each selected_nodes
    (show_node w branch_manifest production_manifest state_comparator
       state_inclusion_reasons_by_node).

(** Lines 19-45: the page set-up and the two widgets. *)
Definition page_top : list event :=
  [ st_set_page_config;
    st_title "dbt Manifest Differ";
    st_info;
    st_selectbox "State comparison method:" state_options;
    st_multiselect "Properties to ignore when showing node-level diffs:"
      ignore_options ignore_default ].

(** The whole script. *)
Definition differ (w : world) : run unit :=
  for_each page_top emit;;
  g ← find_manifests w;
  not_found ← read_name "not_found_files" (not_found_files g);
  if nonempty not_found
  then emit (st_warning "Production and branch manifests needed to perform comparison")
  else compare_manifests w g.

(** ** Sample inputs *)

(** Two records of [model.a] that differ in [created_at] only. *)
Definition example_left : gmap string pyval :=
  <["raw_code" := PStr "select 1"]> (<["created_at" := PInt 1700000000]> ∅).

Definition example_right : gmap string pyval :=
  <["raw_code" := PStr "select 1"]> (<["created_at" := PInt 1600000000]> ∅).

(** A stand-in for jsondiff: the pair of the two sides. *)
Definition pair_diff (a b : pyval) : pyval := PList [a; b].


(** A record whose [created_at] is on one side only, and one whose
    [alias] is [None] on the left and missing on the right. *)
Definition only_created_at : gmap string pyval := {["created_at" := PInt 1700000000]}.

Definition only_alias_none : gmap string pyval := {["alias" := PNone]}.

(** ** Measures on the two dictionaries of the classification *)

(** [sum(f(v) for v in m.values())] *)
Definition map_sum {A : Type} (f : A → nat) (m : gmap string A) : nat :=
  map_fold (λ _ v acc, f v + acc) 0 m.

(** How many times [x] is in [l]. *)
Definition count_in (x : string) (l : list string) : nat :=
  length (filter (λ y, y = x) l).

(** The number of reasons recorded, over all nodes. *)
Definition total_reasons (reasons : gmap string (list string)) : nat :=
  map_sum length reasons.

(** The sum of the per-category counts. *)
Definition total_counts (counts : gmap string nat) : nat :=
  map_sum id counts.

(** How many times a category was appended to the index. *)
Definition times_appended (state_option : string)
    (reasons : gmap string (list string)) : nat :=
  map_sum (count_in state_option) reasons.

(** The nodes whose reason list has the category. *)
Definition nodes_with_reason (state_option : string)
    (reasons : gmap string (list string)) : gset string :=
  dom (filter (λ kv, state_option ∈ kv.2) reasons).

(** What one node's entry is after the inner loop. *)
Definition extend (entry : option (list string)) (l : list string) :
    option (list string) :=
  match l with
  | [] => entry
  | _ :: _ => Some (default [] entry ++ l)
  end.

(** The reasons the loop over [options] appends for [node], in order:
    each option once for every time the node is in its results. *)
Definition reasons_for (state_comparator : StateSelectorMethod)
    (included_nodes : gset string) (options : list string) (node : string) :
    list string :=
  flat_map
    (λ o, replicate (count_in node (search state_comparator included_nodes o)) o)
    options.

(** The sum of the lengths of the results over a list of options. *)
Definition total_results (state_comparator : StateSelectorMethod)
    (included_nodes : gset string) (options : list string) : nat :=
  sum_list ((λ o, length (search state_comparator included_nodes o)) <$> options).

(** ** A sample run *)

(** The production manifest has [model.a], [model.c] and [model.old];
    the branch changed the code of [model.a] and the configuration of
    [model.c], dropped [model.old] and added [model.b]. *)
Definition sample_node (raw_code : string) (materialized : string) (created_at : Z) : node :=
  Node (<["raw_code" := PStr raw_code]>
          (<["config" := PDict [("materialized", PStr materialized)]]>
             (<["created_at" := PInt created_at]> ∅)))
       [].

Definition sample_production : WritableManifest :=
  Manifest (<["model.a" := sample_node "select 1" "view" 1600000000]>
              (<["model.c" := sample_node "select 3" "view" 1600000000]>
                 (<["model.old" := sample_node "select 0" "view" 1600000000]> ∅))).

Definition sample_branch : WritableManifest :=
  Manifest (<["model.a" := sample_node "select 2" "view" 1700000000]>
              (<["model.b" := sample_node "select 4" "view" 1700000000]>
                 (<["model.c" := sample_node "select 3" "table" 1700000000]> ∅))).

(** Whether a field is on one side only or has unequal values. *)
Definition field_differs (field : string) (old new : gmap string pyval) : bool :=
  match old !! field, new !! field with
  | Some a, Some b => py_ne a b
  | None, None => false
  | _, _ => true
  end.

(** A stand-in for dbt's state checks on the sample nodes, after the
    category list of the specification: [new] holds of a node with no
    previous node, each [modified.*] of a node whose field differs from
    the previous node's, and [modified] when one of them does.  The
    sample manifests have no macros. *)
Definition sample_check (selector : string) (old : option node) (new : node) : bool :=
  match old with
  | None => String.eqb selector "new"
  | Some old =>
      let differs field := field_differs field (to_dict old) (to_dict new) in
      if String.eqb selector "modified.body" then differs "raw_code"
      else if String.eqb selector "modified.configs" then differs "config"
      else if String.eqb selector "modified.persisted_descriptions" then differs "description"
      else if String.eqb selector "modified.relation" then differs "relation_name"
      else if String.eqb selector "modified.contract" then differs "contract"
      else if String.eqb selector "modified" then
        differs "raw_code" || differs "config" || differs "description"
        || differs "relation_name" || differs "contract"
      else false
  end.

(** The stand-in comparator: it goes through the nodes of its own
    manifest that are among the included ids. *)
Definition sample_StateSelectorMethod (current : WritableManifest)
    (previous_state : MockPreviousState) (arguments : string) : StateSelectorMethod :=
  mkStateSelectorMethod
    (λ included_nodes selector,
       filter
         (λ unique_id,
            bool_decide (unique_id ∈ included_nodes) &&
            match nodes current !! unique_id with
            | Some new =>
                sample_check selector
                  (nodes (manifest previous_state) !! unique_id) new
            | None => false
            end = true)
         (elements (dom (nodes current))))
    [].

Definition sample_home : string := "/project".
Definition sample_production_location : string := "/project/logs/manifest.json".
Definition sample_branch_location : string := "/project/target/manifest.json".

(** A flattener that fails on a nested [config] diff. *)
Definition sample_flatten_keys (d : gmap string pyval) : exn + gmap string pyval :=
  match d !! "config" with
  | Some _ => inl (OtherError "unhashable type")
  | None => inr d
  end.

(** The sample collaborators, for a given value of the environment
    variable, a given file system and a given choice in the select
    box.  The branch manifest had the payload of [seed.big] removed. *)
Definition sample_world_of (home : option string) (present : string → bool)
    (method : string) : world :=
  World
    (λ name, if String.eqb name "DATACOVES__DBT_HOME" then home else None)
    present
    (λ file_name, inr (PStr file_name))
    (λ data,
       (data,
        if py_eq data (PStr sample_branch_location) then {["seed.big"]} else ∅))
    (λ data,
       inr (if py_eq data (PStr sample_production_location)
            then sample_production else sample_branch))
    sample_StateSelectorMethod
    pair_diff
    sample_flatten_keys
    (λ d, inr (mkDataFrame d))
    method
    ignore_default.

(** Both files are there and [modified] is selected. *)
Definition sample_world : world :=
  sample_world_of (Some sample_home) (λ _, true) "modified".

(** The same with [new] selected. *)
Definition sample_world_new : world :=
  sample_world_of (Some sample_home) (λ _, true) "new".

(** The production manifest was not written to [logs]. *)
Definition sample_world_no_production : world :=
  sample_world_of (Some sample_home)
    (λ file_name, String.eqb file_name sample_branch_location) "modified".

(** The environment variable is not set. *)
Definition sample_world_no_home : world :=
  sample_world_of None (λ _, true) "modified".

Definition sample_comparator : StateSelectorMethod :=
  state_comparator sample_world sample_branch sample_production.

(** ** Reading a trace *)

(** The ids of the nodes a run displayed. *)
Definition displayed_ids (t : list event) : list string :=
  omap (λ ev, match ev with st_subheader unique_id => Some unique_id | _ => None end) t.

(** The large-seed warnings of a run. *)
Definition seed_warnings (t : list event) : list (gset string) :=
  omap (λ ev, match ev with st_warning_large_seeds s => Some s | _ => None end) t.

(** The files a run opened. *)
Definition opened_files (t : list event) : list string :=
  omap (λ ev, match ev with open_file f => Some f | _ => None end) t.

(** The bar charts of a run. *)
Definition bar_charts (t : list event) : list (gmap string nat) :=
  omap (λ ev, match ev with st_bar_chart d => Some d | _ => None end) t.

(** The names of the files that are not there (lines 68-71). *)
Definition missing_files (w : world) (home : string) : list string :=
  (if os_path_exists w (os_path_join home ["logs"; "manifest.json"])
   then [] else ["Production manifest file"]) ++
  (if os_path_exists w (os_path_join home ["target"; "manifest.json"])
   then [] else ["Branch manifest file"]).

(** ** The events of the comparison, piece by piece *)

(** Lines 84-85. *)
Definition seed_warning_events (skipped : gset string) : list event :=
  if decide (0 < size skipped) then [st_warning_large_seeds skipped] else [].

(** Lines 101-103. *)
Definition macros_events (state_comparator : StateSelectorMethod) : list event :=
  if nonempty (modified_macros state_comparator)
  then [st_header "Modified macros";
        st_write_macros (modified_macros state_comparator)]
  else [].

(** Lines 134-135. *)
Definition depends_on_events (state_comparator : StateSelectorMethod)
    (left_node : node) : list event :=
  if nonempty (depends_on_macros left_node)
     && nonempty (modified_macros state_comparator)
  then [st_write_depends_on (depends_on_macros left_node)]
  else [].

(** What is shown for a node of both manifests before the flat table. *)
Definition both_events (w : world) (state_comparator : StateSelectorMethod)
    (unique_id : string) (found : list string) (left_node right_node : node) :
    list event :=
  [st_subheader unique_id;
   st_write "##### State selectors that find this node:";
   st_code found] ++
  depends_on_events state_comparator left_node ++
  [st_columns 2;
   st_write "##### JSON tree of diffs:";
   st_json (diffs (jsondiff_diff w) (properties_to_ignore w)
              (to_dict left_node) (to_dict right_node));
   st_write "##### JSON tree of all elements in right node:";
   st_json (to_dict right_node);
   st_write "##### Flat table of diffs:"].

(** What is shown for a node of the branch manifest only. *)
Definition new_node_events (unique_id : string) (found : list string) : list event :=
  [st_subheader unique_id;
   st_warning "Missing from production manifest (new node)";
   st_write "State methods that pick this node up:";
   st_code found;
   st_divider].

(** The flattening of a diff mapping into a table fails with [e]. *)
Definition table_fails (w : world) (d : gmap string pyval) (e : exn) : Prop :=
  flatten_keys w d = inl e ∨
  ∃ flattened, flatten_keys w d = inr flattened ∧ DataFrame_from_dict w flattened = inl e.

(** ** The groups of ignored fields *)




(** ** More readings of a run *)

(** Loading the file fails with [e]: the parse raises it, or the
    normalisation of the pruned document does. *)
Definition load_fails (w : world) (file_name : string) (e : exn) : Prop :=
  json_load w file_name = inl e ∨
  ∃ data, json_load w file_name = inr data ∧
          upgrade_schema_version w (remove_large_seeds w data).1 = inl e.

(** The warning of line 155. *)
Definition deleted_node_warning : event :=
  st_warning "Missing from branch manifest (deleted node)".

(** The whole output of a comparison that runs to its end. *)
Definition comparison_events (w : world) (skipped : gset string)
    (m_b m_p : WritableManifest) : list event :=
  let cmp := state_comparator w m_b m_p in
  let reasons := state_inclusion_reasons_by_node cmp (included_nodes m_b) in
  seed_warning_events skipped ++
  [st_bar_chart (state_inclusion_counts cmp (included_nodes m_b))] ++
  macros_events cmp ++
  [st_header (selected_header (length (selected_nodes w m_b m_p)))] ++
  concat ((λ u, trace (show_node w m_b m_p cmp reasons u))
            <$> selected_nodes w m_b m_p).

(** The variable is set to the empty string. *)
Definition sample_world_empty_home : world :=
  sample_world_of (Some EmptyString) (λ _, true) "modified".

(** The production manifest is not JSON; the branch manifest is of a
    version the normalisation rejects. *)
Definition sample_world_malformed_production : world :=
  World
    (os_getenv sample_world) (os_path_exists sample_world)
    (λ file_name,
       if String.eqb file_name sample_production_location
       then inl (OtherError "Expecting value: line 1 column 1 (char 0)")
       else inr (PStr file_name))
    (remove_large_seeds sample_world) (upgrade_schema_version sample_world)
    sample_StateSelectorMethod pair_diff sample_flatten_keys
    (DataFrame_from_dict sample_world) "modified" ignore_default.

Definition sample_world_rejected_branch : world :=
  World
    (os_getenv sample_world) (os_path_exists sample_world)
    (json_load sample_world) (remove_large_seeds sample_world)
    (λ data,
       if py_eq data (PStr sample_branch_location)
       then inl (OtherError "unsupported manifest version")
       else inr sample_production)
    sample_StateSelectorMethod pair_diff sample_flatten_keys
    (DataFrame_from_dict sample_world) "modified" ignore_default.


(** * Properties *)

(** ** The node differ *)

Lemma diffs_lookup (jd : pyval → pyval → pyval) (ignored : list string)
    (left_dict right_dict : gmap string pyval) (k : string) :
  diffs jd ignored left_dict right_dict !! k =
    if bool_decide (k ∈ all_keys left_dict right_dict)
       && diff_condition ignored left_dict right_dict k
    then Some (diff_entry jd left_dict right_dict k) else None.
Proof.
  unfold diffs.
  destruct (bool_decide (k ∈ all_keys left_dict right_dict)
            && diff_condition ignored left_dict right_dict k) eqn:E.
  - apply andb_true_iff in E as [Hk Hc]. apply bool_decide_eq_true in Hk.
    apply elem_of_list_to_map_1.
    + rewrite <- list_fmap_compose. simpl.
      rewrite list_fmap_id. apply NoDup_filter, NoDup_elements.
    + apply list_elem_of_fmap. exists k. split; [done |].
      apply list_elem_of_filter. split; [done |]. by apply elem_of_elements.
  - apply not_elem_of_list_to_map_1.
    rewrite <- list_fmap_compose. simpl. rewrite list_fmap_id.
    intros [Hc Hk%elem_of_elements]%list_elem_of_filter.
    apply andb_false_iff in E as [E | E]; [| congruence].
    by apply bool_decide_eq_false in E.
Qed.

Lemma diff_condition_true (ignored : list string)
    (left_dict right_dict : gmap string pyval) (k : string) :
  diff_condition ignored left_dict right_dict k = true ↔
    (k ∉ ignored) ∧
    ((k ∉ dom left_dict) ∨ (k ∉ dom right_dict) ∨
     ∃ l r, left_dict !! k = Some l ∧ right_dict !! k = Some r ∧ py_ne l r = true).
Proof.
  unfold diff_condition. rewrite andb_true_iff, bool_decide_eq_true.
  rewrite !not_elem_of_dom.
  destruct (right_dict !! k) as [r |] eqn:Hr, (left_dict !! k) as [l |] eqn:Hl;
    split; intros [Hi H]; split; try done; eauto.
  - right. right. eauto.
  - destruct H as [H | [H | (l' & r' & ? & ? & ?)]]; congruence.
Qed.

Lemma same_outside_no_condition (ignored : list string)
    (left_dict right_dict : gmap string pyval) (k : string) :
  same_outside ignored left_dict right_dict = true →
  k ∈ all_keys left_dict right_dict →
  diff_condition ignored left_dict right_dict k = false.
Proof.
  unfold same_outside. rewrite forallb_forall. intros Hall Hk.
  specialize (Hall k). rewrite <- list_elem_of_In, elem_of_elements in Hall.
  specialize (Hall Hk). apply orb_true_iff in Hall as [Hi | Heq].
  - apply bool_decide_eq_true in Hi. unfold diff_condition.
    rewrite bool_decide_eq_false_2; [done | tauto].
  - unfold diff_condition, py_ne.
    destruct (left_dict !! k), (right_dict !! k); try done.
    rewrite Heq. apply andb_false_r.
Qed.

(** C1: the diff mapping of two node records holds a key exactly when
    the key is in the union of the records' keys, is not ignored, and
    is missing from one side or has unequal values; so two records that
    agree on every field that is not ignored have an empty diff. *)
Theorem diffs_has_exactly_the_changed_fields (jd : pyval → pyval → pyval)
    (ignored : list string) (left_dict right_dict : gmap string pyval) :
  (∀ k : string,
     k ∈ dom (diffs jd ignored left_dict right_dict) ↔
       k ∈ dom left_dict ∪ dom right_dict ∧
       (k ∉ ignored) ∧
       ((k ∉ dom left_dict) ∨ (k ∉ dom right_dict) ∨
        ∃ l r, left_dict !! k = Some l ∧ right_dict !! k = Some r ∧
               py_ne l r = true)) ∧
  (same_outside ignored left_dict right_dict = true →
     diffs jd ignored left_dict right_dict = ∅).
Proof.
  split.
  - intros k. rewrite elem_of_dom, diffs_lookup, <- diff_condition_true.
    fold (all_keys left_dict right_dict).
    destruct (bool_decide (k ∈ all_keys left_dict right_dict)) eqn:Hk; simpl.
    + apply bool_decide_eq_true in Hk.
      destruct (diff_condition ignored left_dict right_dict k); split.
      * done.
      * by eauto.
      * by intros [? ?].
      * by intros [_ ?].
    + apply bool_decide_eq_false in Hk. split; [by intros [? ?] | tauto].
  - intros Hsame. apply map_eq. intros k. rewrite lookup_empty, diffs_lookup.
    destruct (bool_decide (k ∈ all_keys left_dict right_dict)) eqn:Hk; [| done].
    apply bool_decide_eq_true in Hk.
    by rewrite (same_outside_no_condition _ _ _ _ Hsame Hk).
Qed.

Lemma diffs_has_exactly_the_changed_fields_witness :
  same_outside ["created_at"] example_left example_right = true ∧
  diffs pair_diff ["created_at"] example_left example_right = ∅.
Proof.
  split.
  - vm_compute. reflexivity.
  - apply (proj2 (diffs_has_exactly_the_changed_fields pair_diff ["created_at"]
                    example_left example_right)).
    vm_compute. reflexivity.
Defined.

(** C10, as stated, fails on an ignored key: [created_at] is in the
    left record only, yet the diff has no entry for it when it is
    ignored. *)
Lemma ignored_one_sided_field_not_in_diffs :
  only_created_at !! "created_at" = Some (PInt 1700000000) ∧
  (∅ : gmap string pyval) !! "created_at" = None ∧
  diffs pair_diff ["created_at"] only_created_at ∅ !! "created_at" = None.
Proof. repeat split; vm_compute; reflexivity. Qed.

(** C10, amended: a key that is not ignored and is in exactly one of
    the two records is in the diff mapping, its entry the diff of the
    value that is there against [None] (on the side where it is
    missing); this holds also when the value that is there is [None]. *)
Theorem one_sided_field_in_diffs (jd : pyval → pyval → pyval)
    (ignored : list string) (left_dict right_dict : gmap string pyval)
    (k : string) (v : pyval) :
  k ∉ ignored →
  (left_dict !! k = Some v ∧ right_dict !! k = None →
     diffs jd ignored left_dict right_dict !! k = Some (jd v PNone)) ∧
  (left_dict !! k = None ∧ right_dict !! k = Some v →
     diffs jd ignored left_dict right_dict !! k = Some (jd PNone v)).
Proof.
  intros Hi. split; intros [Hl Hr]; rewrite diffs_lookup.
  - rewrite bool_decide_eq_true_2.
    + unfold diff_condition, diff_entry, dict_get. rewrite Hl, Hr. simpl.
      by rewrite bool_decide_eq_true_2.
    + unfold all_keys. apply elem_of_union_l, elem_of_dom. eauto.
  - rewrite bool_decide_eq_true_2.
    + unfold diff_condition, diff_entry, dict_get. rewrite Hl, Hr. simpl.
      by rewrite bool_decide_eq_true_2.
    + unfold all_keys. apply elem_of_union_r, elem_of_dom. eauto.
Qed.

Lemma one_sided_field_in_diffs_witness :
  diffs pair_diff ignore_default only_alias_none ∅ !! "alias"
    = Some (pair_diff PNone PNone).
Proof.
  refine (proj1 (one_sided_field_in_diffs pair_diff ignore_default
                   only_alias_none ∅ "alias" PNone _) _).
  - apply (bool_decide_unpack _). vm_compute. reflexivity.
  - split; vm_compute; reflexivity.
Defined.

(** ** Sums over a dictionary *)

Section MapSum.
Context {A : Type} (f : A → nat).

Lemma map_sum_empty : map_sum f ∅ = 0.
Proof. unfold map_sum. apply map_fold_empty. Qed.

Lemma map_sum_insert_None (m : gmap string A) (k : string) (v : A) :
  m !! k = None → map_sum f (<[k := v]> m) = f v + map_sum f m.
Proof.
  intros Hk. unfold map_sum.
  rewrite map_fold_insert_L; [done | intros; lia | done].
Qed.

Lemma map_sum_delete (m : gmap string A) (k : string) (v : A) :
  m !! k = Some v → map_sum f m = f v + map_sum f (delete k m).
Proof.
  intros Hk. rewrite <- (insert_id m k v Hk) at 1.
  rewrite <- insert_delete_eq.
  apply map_sum_insert_None, lookup_delete_eq.
Qed.

Lemma map_sum_insert_Some (m : gmap string A) (k : string) (v0 v : A) :
  m !! k = Some v0 →
  map_sum f (<[k := v]> m) + f v0 = f v + map_sum f m.
Proof.
  intros Hk. rewrite (map_sum_delete m k v0 Hk).
  rewrite <- insert_delete_eq.
  rewrite map_sum_insert_None by apply lookup_delete_eq. lia.
Qed.
End MapSum.

(** ** The classification loop *)

Lemma count_in_app (x : string) (l1 l2 : list string) :
  count_in x (l1 ++ l2) = count_in x l1 + count_in x l2.
Proof. unfold count_in. by rewrite filter_app, length_app. Qed.

Lemma count_in_cons (x y : string) (l : list string) :
  count_in x (y :: l) = (if decide (y = x) then 1 else 0) + count_in x l.
Proof.
  unfold count_in. destruct (decide (y = x)) as [-> | Hne].
  - by rewrite filter_cons_True.
  - by rewrite filter_cons_False.
Qed.

Lemma count_in_pos (x : string) (l : list string) :
  0 < count_in x l ↔ x ∈ l.
Proof.
  induction l as [| y l IH].
  - split; [cbn; lia | by intros ?%elem_of_nil].
  - rewrite count_in_cons, elem_of_cons. destruct (decide (y = x)) as [-> | Hne].
    + split; [by left | lia].
    + simpl. rewrite IH. split; [by right | intros [-> | ?]; done].
Qed.

(** One append adds one reason to the index. *)
Lemma total_reasons_add_reason (o : string)
    (reasons : gmap string (list string)) (n : string) :
  total_reasons (add_reason o reasons n) = S (total_reasons reasons).
Proof.
  unfold total_reasons, add_reason. destruct (reasons !! n) as [l |] eqn:Hn.
  - pose proof (map_sum_insert_Some length reasons n l (l ++ [o]) Hn) as H.
    rewrite length_app in H. simpl in H. lia.
  - by rewrite map_sum_insert_None.
Qed.

Lemma times_appended_add_reason (o o' : string)
    (reasons : gmap string (list string)) (n : string) :
  times_appended o' (add_reason o reasons n) =
    (if decide (o = o') then 1 else 0) + times_appended o' reasons.
Proof.
  unfold times_appended, add_reason. destruct (reasons !! n) as [l |] eqn:Hn.
  - pose proof (map_sum_insert_Some (count_in o') reasons n l (l ++ [o]) Hn) as H.
    rewrite count_in_app, count_in_cons in H. cbn in H. lia.
  - rewrite map_sum_insert_None by done. rewrite count_in_cons. cbn. lia.
Qed.

Lemma total_reasons_results (o : string) (results : list string)
    (reasons : gmap string (list string)) :
  total_reasons (foldl (add_reason o) reasons results) =
    total_reasons reasons + length results.
Proof.
  revert reasons. induction results as [| n results IH]; intros reasons; simpl.
  - lia.
  - rewrite IH, total_reasons_add_reason. lia.
Qed.

Lemma times_appended_results (o o' : string) (results : list string)
    (reasons : gmap string (list string)) :
  times_appended o' (foldl (add_reason o) reasons results) =
    times_appended o' reasons + (if decide (o = o') then length results else 0).
Proof.
  revert reasons. induction results as [| n results IH]; intros reasons; simpl.
  - destruct (decide (o = o')); lia.
  - rewrite IH, times_appended_add_reason. destruct (decide (o = o')); lia.
Qed.

Lemma extend_app (entry : option (list string)) (l1 l2 : list string) :
  extend (extend entry l1) l2 = extend entry (l1 ++ l2).
Proof.
  destruct l1 as [| x l1]; [done |]. destruct l2 as [| y l2]; simpl.
  - by rewrite app_nil_r.
  - by rewrite <- app_assoc.
Qed.

Lemma add_reason_lookup (o : string) (reasons : gmap string (list string))
    (n n' : string) :
  add_reason o reasons n !! n' =
    if decide (n = n') then Some (default [] (reasons !! n') ++ [o])
    else reasons !! n'.
Proof.
  unfold add_reason. destruct (decide (n = n')) as [<- | Hne].
  - destruct (reasons !! n) eqn:Hn; by rewrite lookup_insert_eq.
  - destruct (reasons !! n) eqn:Hn; by rewrite lookup_insert_ne.
Qed.

(** The inner loop appends the category to a node's entry once for
    every time the node is in the results, and makes the entry when
    there was none. *)
Lemma results_lookup (o : string) (results : list string)
    (reasons : gmap string (list string)) (n : string) :
  foldl (add_reason o) reasons results !! n =
    extend (reasons !! n) (replicate (count_in n results) o).
Proof.
  revert reasons. induction results as [| a results IH]; intros reasons; simpl.
  - done.
  - rewrite IH, add_reason_lookup, count_in_cons.
    destruct (decide (a = n)) as [-> | Hne]; [| done].
    change (Some (default [] (reasons !! n) ++ [o]))
      with (extend (reasons !! n) [o]).
    by rewrite extend_app.
Qed.

Section Classification.
Variable state_comparator : StateSelectorMethod.
Variable included_nodes : gset string.

Local Abbreviation results_of o := (search state_comparator included_nodes o).
Local Abbreviation loop := (classify_from state_comparator included_nodes).

Lemma classify_from_cons (acc : gmap string nat * gmap string (list string))
    (o : string) (options : list string) :
  loop acc (o :: options) =
    loop (classify_option state_comparator included_nodes acc o) options.
Proof. done. Qed.

Lemma total_results_cons (o : string) (options : list string) :
  total_results state_comparator included_nodes (o :: options) =
    length (results_of o) + total_results state_comparator included_nodes options.
Proof. done. Qed.

Lemma classify_from_reasons_lookup (options : list string)
    (acc : gmap string nat * gmap string (list string)) (n : string) :
  (loop acc options).2 !! n =
    extend (acc.2 !! n) (reasons_for state_comparator included_nodes options n).
Proof.
  revert acc. induction options as [| o options IH]; intros acc.
  - done.
  - rewrite classify_from_cons, IH. unfold classify_option at 1. simpl.
    by rewrite results_lookup, extend_app.
Qed.

Lemma classify_from_total_reasons (options : list string)
    (acc : gmap string nat * gmap string (list string)) :
  total_reasons (loop acc options).2 =
    total_reasons acc.2 + total_results state_comparator included_nodes options.
Proof.
  revert acc. induction options as [| o options IH]; intros acc.
  - unfold total_results. simpl. lia.
  - rewrite classify_from_cons, IH. unfold classify_option at 1. simpl.
    rewrite total_reasons_results, total_results_cons. lia.
Qed.

Lemma classify_from_counts_other (options : list string)
    (acc : gmap string nat * gmap string (list string)) (o : string) :
  o ∉ options → (loop acc options).1 !! o = acc.1 !! o.
Proof.
  revert acc. induction options as [| o' options IH]; intros acc Ho.
  - done.
  - apply not_elem_of_cons in Ho as [Hne Ho].
    rewrite classify_from_cons, IH by done. unfold classify_option. simpl.
    by rewrite lookup_insert_ne.
Qed.

Lemma classify_from_counts (options : list string)
    (acc : gmap string nat * gmap string (list string)) (o : string) :
  NoDup options → o ∈ options →
  (loop acc options).1 !! o = Some (length (results_of o)).
Proof.
  revert acc. induction options as [| o' options IH]; intros acc Hnd Ho.
  - by apply elem_of_nil in Ho.
  - apply NoDup_cons in Hnd as [Hfresh Hnd]. rewrite classify_from_cons.
    apply elem_of_cons in Ho as [-> | Ho].
    + rewrite classify_from_counts_other by done.
      unfold classify_option. simpl. by rewrite lookup_insert_eq.
    + by apply IH.
Qed.

Lemma classify_from_total_counts (options : list string)
    (acc : gmap string nat * gmap string (list string)) :
  NoDup options → (∀ o, o ∈ options → acc.1 !! o = None) →
  total_counts (loop acc options).1 =
    total_counts acc.1 + total_results state_comparator included_nodes options.
Proof.
  revert acc. induction options as [| o options IH]; intros acc Hnd Hfresh.
  - unfold total_results. simpl. lia.
  - apply NoDup_cons in Hnd as [Ho Hnd]. rewrite classify_from_cons, IH.
    + unfold classify_option at 1. simpl. unfold total_counts at 1.
      rewrite map_sum_insert_None by (apply Hfresh; left).
      rewrite total_results_cons. unfold total_counts. simpl. lia.
    + done.
    + intros o' Ho'. unfold classify_option. simpl.
      rewrite lookup_insert_ne by (intros ->; done).
      apply Hfresh. by right.
Qed.

Lemma classify_from_times_appended (options : list string)
    (acc : gmap string nat * gmap string (list string)) (o : string) :
  NoDup options →
  times_appended o (loop acc options).2 =
    times_appended o acc.2 +
    (if decide (o ∈ options) then length (results_of o) else 0).
Proof.
  revert acc. induction options as [| o' options IH]; intros acc Hnd.
  - simpl. destruct (decide (o ∈ [])) as [Hin | _]; [| lia].
    by apply elem_of_nil in Hin.
  - apply NoDup_cons in Hnd as [Ho' Hnd]. rewrite classify_from_cons, IH by done.
    unfold classify_option at 1. simpl. rewrite times_appended_results.
    destruct (decide (o' = o)) as [-> | Hne];
      destruct (decide (o ∈ options)) as [Hin | Hnin];
      destruct (decide (o ∈ _ :: options)) as [Hin' | Hnin'];
      try done; try lia.
    + exfalso. apply Hnin'. by left.
    + exfalso. apply Hnin'. by right.
    + apply elem_of_cons in Hin' as [-> | ?]; done.
Qed.
End Classification.

Lemma state_options_NoDup : NoDup state_options.
Proof. apply (bool_decide_unpack _). vm_compute. reflexivity. Qed.

Lemma elem_of_reasons_for (cmp : StateSelectorMethod) (inc : gset string)
    (options : list string) (n o : string) :
  o ∈ reasons_for cmp inc options n ↔ o ∈ options ∧ n ∈ search cmp inc o.
Proof.
  unfold reasons_for. rewrite list_elem_of_In, in_flat_map. split.
  - intros (o' & Ho' & Hin). apply list_elem_of_In in Ho', Hin.
    apply elem_of_replicate in Hin as [-> Hc]. split; [done |].
    apply count_in_pos. lia.
  - intros [Ho Hn]. exists o. rewrite <- !list_elem_of_In. split; [done |].
    apply elem_of_replicate. split; [done |].
    apply count_in_pos in Hn. lia.
Qed.

(** The entry of a node in the finished index. *)
Lemma reasons_by_node_lookup (cmp : StateSelectorMethod) (inc : gset string)
    (n : string) :
  state_inclusion_reasons_by_node cmp inc !! n =
    extend None (reasons_for cmp inc state_options n).
Proof.
  unfold state_inclusion_reasons_by_node, classify.
  by rewrite classify_from_reasons_lookup.
Qed.

Lemma reasons_by_node_Some (cmp : StateSelectorMethod) (inc : gset string)
    (n : string) (l : list string) :
  state_inclusion_reasons_by_node cmp inc !! n = Some l →
  l = reasons_for cmp inc state_options n ∧ l ≠ [].
Proof.
  rewrite reasons_by_node_lookup.
  destruct (reasons_for cmp inc state_options n) as [| o l'] eqn:E; simpl.
  - done.
  - intros [= <-]. done.
Qed.

Lemma nodes_with_reason_results (cmp : StateSelectorMethod) (inc : gset string)
    (o : string) :
  o ∈ state_options →
  nodes_with_reason o (state_inclusion_reasons_by_node cmp inc) =
    list_to_set (search cmp inc o).
Proof.
  intros Ho. apply set_eq. intros n. unfold nodes_with_reason.
  rewrite elem_of_dom, elem_of_list_to_set. split.
  - intros [l [Hl Hin]%map_lookup_filter_Some]. simpl in Hin.
    apply reasons_by_node_Some in Hl as [-> _].
    by apply elem_of_reasons_for in Hin as [_ ?].
  - intros Hn.
    assert (o ∈ reasons_for cmp inc state_options n) as Hin
      by (by apply elem_of_reasons_for).
    exists (reasons_for cmp inc state_options n).
    apply map_lookup_filter_Some. split; [| done].
    rewrite reasons_by_node_lookup.
    destruct (reasons_for cmp inc state_options n); [by apply elem_of_nil in Hin | done].
Qed.

(** C2: after the loop over the eight categories, the count recorded
    for a category is the length of its results, which is the number of
    times the category was appended to the index and, the results
    naming each node once, the number of nodes that have it among their
    reasons (zero included); and the reasons of all nodes together are
    as many as the counts add up to. *)
Theorem counts_match_reasons (cmp : StateSelectorMethod) (inc : gset string) :
  (∀ o : string, o ∈ state_options →
     state_inclusion_counts cmp inc !! o = Some (length (search cmp inc o)) ∧
     times_appended o (state_inclusion_reasons_by_node cmp inc)
       = length (search cmp inc o) ∧
     (NoDup (search cmp inc o) →
        size (nodes_with_reason o (state_inclusion_reasons_by_node cmp inc))
          = length (search cmp inc o))) ∧
  total_reasons (state_inclusion_reasons_by_node cmp inc)
    = total_counts (state_inclusion_counts cmp inc).
Proof.
  split.
  - intros o Ho. split; [| split].
    + apply classify_from_counts; [apply state_options_NoDup | done].
    + unfold state_inclusion_reasons_by_node, classify.
      rewrite classify_from_times_appended by apply state_options_NoDup.
      rewrite decide_True by done. simpl.
      unfold times_appended. by rewrite map_sum_empty.
    + intros Hnd. rewrite nodes_with_reason_results by done.
      by apply size_list_to_set.
  - unfold state_inclusion_reasons_by_node, state_inclusion_counts, classify.
    rewrite classify_from_total_reasons.
    rewrite classify_from_total_counts; [| apply state_options_NoDup | done].
    simpl. unfold total_reasons, total_counts. by rewrite !map_sum_empty.
Qed.

Lemma counts_match_reasons_witness :
  state_inclusion_counts sample_comparator (included_nodes sample_branch)
    !! "modified.macros" = Some 0 ∧
  state_inclusion_counts sample_comparator (included_nodes sample_branch)
    !! "modified" = Some 2 ∧
  size (nodes_with_reason "modified"
          (state_inclusion_reasons_by_node sample_comparator
             (included_nodes sample_branch))) = 2.
Proof.
  pose proof (counts_match_reasons sample_comparator (included_nodes sample_branch))
    as [Hcat _].
  destruct (Hcat "modified.macros") as (Hzero & _ & _).
  { apply (bool_decide_unpack _). vm_compute. reflexivity. }
  destruct (Hcat "modified") as (Hcount & _ & Hnodes).
  { apply (bool_decide_unpack _). vm_compute. reflexivity. }
  split; [exact Hzero | split; [exact Hcount |]].
  rewrite Hnodes.
  - vm_compute. reflexivity.
  - apply (bool_decide_unpack _). vm_compute. reflexivity.
Defined.

(** ** Runs *)

Lemma bind_emit {B : Type} (ev : event) (k : unit → run B) :
  (emit ev ≫= k) = (ev :: (k tt).1, (k tt).2).
Proof. unfold mbind, run_bind, emit. by destruct (k tt). Qed.

Lemma bind_ok {A B : Type} (t : list event) (a : A) (k : A → run B) :
  (((t, inr a) : run A) ≫= k) = (t ++ (k a).1, (k a).2).
Proof. unfold mbind, run_bind. by destruct (k a). Qed.

Lemma differ_unfold (w : world) :
  differ w =
    (page_top ++
       (find_manifests w ≫= λ g,
          read_name "not_found_files" (not_found_files g) ≫= λ not_found,
            if nonempty not_found
            then emit (st_warning "Production and branch manifests needed to perform comparison")
            else compare_manifests w g).1,
     (find_manifests w ≫= λ g,
        read_name "not_found_files" (not_found_files g) ≫= λ not_found,
          if nonempty not_found
          then emit (st_warning "Production and branch manifests needed to perform comparison")
          else compare_manifests w g).2).
Proof.
  unfold differ.
  change (for_each page_top emit) with ((page_top, inr tt) : run unit).
  by rewrite bind_ok.
Qed.

(** ** The missing environment variable *)

(** C8: when [DATACOVES__DBT_HOME] is not set, the run shows the
    warning about the variable and then raises [NameError] for
    [not_found_files] at the guard of the comparison: the name is
    assigned only in the branch taken when the variable is set. *)
Theorem unset_home_raises_NameError (w : world) :
  os_getenv w "DATACOVES__DBT_HOME" = None →
  differ w =
    (page_top ++ [st_warning "DATACOVES__DBT_HOME environment variable not set."],
     inl (NameError "not_found_files")).
Proof.
  intros Henv. rewrite differ_unfold. unfold find_manifests.
  rewrite Henv. reflexivity.
Qed.

Lemma unset_home_raises_NameError_witness :
  outcome (differ sample_world_no_home) = inl (NameError "not_found_files").
Proof.
  rewrite (unset_home_raises_NameError sample_world_no_home).
  - reflexivity.
  - vm_compute. reflexivity.
Defined.

(** ** Missing manifest files *)

(** C5: when the variable is set and one of the two files is not
    there, the run shows a warning that names the missing files, then
    the warning that both manifests are needed, and ends: it opens no
    file, draws no chart and displays no node. *)
Theorem missing_manifest_stops_comparison (w : world) (home : string) :
  truthy (os_getenv w "DATACOVES__DBT_HOME") = Some home →
  os_path_exists w (os_path_join home ["logs"; "manifest.json"]) = false ∨
  os_path_exists w (os_path_join home ["target"; "manifest.json"]) = false →
  differ w =
    (page_top ++
       [st_warning ("Manifest files not found: "
                    +:+ String.concat ", " (missing_files w home)
                    +:+ ". Please make sure the paths are correct.");
        st_warning "Production and branch manifests needed to perform comparison"],
     inr tt) ∧
  missing_files w home ≠ [] ∧
  opened_files (trace (differ w)) = [] ∧
  bar_charts (trace (differ w)) = [] ∧
  displayed_ids (trace (differ w)) = [].
Proof.
  intros Henv Hmissing.
  assert (differ w =
    (page_top ++
       [st_warning ("Manifest files not found: "
                    +:+ String.concat ", " (missing_files w home)
                    +:+ ". Please make sure the paths are correct.");
        st_warning "Production and branch manifests needed to perform comparison"],
     inr tt) ∧ missing_files w home ≠ []) as [Hrun Hne].
  { rewrite differ_unfold. unfold find_manifests, missing_files. rewrite Henv.
    destruct (os_path_exists w (os_path_join home ["logs"; "manifest.json"])) eqn:Hp,
             (os_path_exists w (os_path_join home ["target"; "manifest.json"])) eqn:Hb;
      simpl; try done.
    by destruct Hmissing. }
  split; [done |]. split; [done |]. rewrite Hrun. done.
Qed.

Lemma missing_manifest_stops_comparison_witness :
  differ sample_world_no_production =
    (page_top ++
       [st_warning "Manifest files not found: Production manifest file. Please make sure the paths are correct.";
        st_warning "Production and branch manifests needed to perform comparison"],
     inr tt).
Proof.
  refine (eq_trans
    (proj1 (missing_manifest_stops_comparison sample_world_no_production sample_home _ _)) _).
  - vm_compute. reflexivity.
  - left. vm_compute. reflexivity.
  - vm_compute. reflexivity.
Defined.

(** ** Loading *)

(** Whatever the normalisation answers, it is asked about the pruned
    document. *)
Lemma load_manifest_pruned (w : world) (file_name : string) (skipped : gset string)
    (data : pyval) :
  json_load w file_name = inr data →
  load_manifest w file_name skipped =
    ([open_file file_name],
     match upgrade_schema_version w (remove_large_seeds w data).1 with
     | inl e => inl e
     | inr m => inr (m, skipped ∪ (remove_large_seeds w data).2)
     end).
Proof.
  intros Hload. unfold load_manifest. rewrite bind_emit, Hload.
  unfold call. simpl. destruct (remove_large_seeds w data) as [pruned large].
  simpl. by destruct (upgrade_schema_version w pruned).
Qed.

Lemma load_manifest_ok (w : world) (file_name : string) (skipped : gset string)
    (data : pyval) (m : WritableManifest) :
  json_load w file_name = inr data →
  upgrade_schema_version w (remove_large_seeds w data).1 = inr m →
  load_manifest w file_name skipped =
    ([open_file file_name], inr (m, skipped ∪ (remove_large_seeds w data).2)).
Proof.
  intros Hload Hup. unfold load_manifest. rewrite bind_emit, Hload.
  unfold call. simpl. destruct (remove_large_seeds w data) as [pruned large].
  simpl in *. rewrite Hup. reflexivity.
Qed.

Lemma find_manifests_loaded (w : world) (home : string)
    (data_p data_b : pyval) (m_p m_b : WritableManifest) :
  truthy (os_getenv w "DATACOVES__DBT_HOME") = Some home →
  os_path_exists w (os_path_join home ["logs"; "manifest.json"]) = true →
  os_path_exists w (os_path_join home ["target"; "manifest.json"]) = true →
  json_load w (os_path_join home ["logs"; "manifest.json"]) = inr data_p →
  upgrade_schema_version w (remove_large_seeds w data_p).1 = inr m_p →
  json_load w (os_path_join home ["target"; "manifest.json"]) = inr data_b →
  upgrade_schema_version w (remove_large_seeds w data_b).1 = inr m_b →
  find_manifests w =
    ([open_file (os_path_join home ["logs"; "manifest.json"]);
      open_file (os_path_join home ["target"; "manifest.json"])],
     inr (Globals ((remove_large_seeds w data_p).2 ∪ (remove_large_seeds w data_b).2)
            (Some m_p) (Some m_b) (Some []))).
Proof.
  intros Henv Hp Hb Hlp Hup Hlb Hub. unfold find_manifests.
  rewrite Henv, Hp, Hb. simpl.
  rewrite (load_manifest_ok w _ ∅ data_p m_p Hlp Hup), bind_ok. simpl.
  rewrite (load_manifest_ok w _ _ data_b m_b Hlb Hub), bind_ok. simpl.
  by rewrite (left_id_L ∅ (∪)).
Qed.

Lemma compare_manifests_loaded (w : world) (skipped : gset string)
    (m_p m_b : WritableManifest) (not_found : option (list string)) :
  compare_manifests w (Globals skipped (Some m_p) (Some m_b) not_found) =
    (seed_warning_events skipped ++
     [st_bar_chart (state_inclusion_counts (state_comparator w m_b m_p) (included_nodes m_b))] ++
     macros_events (state_comparator w m_b m_p) ++
     [st_header (selected_header (length (selected_nodes w m_b m_p)))] ++
     (for_each (selected_nodes w m_b m_p)
        (show_node w m_b m_p (state_comparator w m_b m_p)
           (state_inclusion_reasons_by_node (state_comparator w m_b m_p)
              (included_nodes m_b)))).1,
     (for_each (selected_nodes w m_b m_p)
        (show_node w m_b m_p (state_comparator w m_b m_p)
           (state_inclusion_reasons_by_node (state_comparator w m_b m_p)
              (included_nodes m_b)))).2).
Proof.
  unfold compare_manifests, read_name, seed_warning_events, macros_events,
    state_inclusion_counts, state_inclusion_reasons_by_node, selected_nodes.
  simpl.
  destruct (classify (state_comparator w m_b m_p) (included_nodes m_b))
    as [counts reasons]. simpl.
  destruct (for_each _ _) as [t r].
  destruct (decide (0 < size skipped)),
           (nonempty (modified_macros (state_comparator w m_b m_p))); reflexivity.
Qed.

(** ** The per-node display *)

Ltac run_steps :=
  unfold show_node, show_both, flat_table, try_except, getitem, call, emit,
    raise, both_events, new_node_events, depends_on_events,
    mbind, run_bind, mret, run_ret;
  simpl.

Lemma for_each_cons {A : Type} (x : A) (xs : list A) (body : A → run unit) :
  for_each (x :: xs) body = (body x ≫= λ _, for_each xs body).
Proof. done. Qed.

(** A loop whose body never raises runs every iteration. *)
Lemma for_each_ok {A : Type} (xs : list A) (body : A → run unit) :
  Forall (λ x, (body x).2 = inr tt) xs →
  for_each xs body = (concat ((λ x, (body x).1) <$> xs), inr tt).
Proof.
  induction 1 as [| x xs Hx _ IH]; [done |].
  rewrite for_each_cons, IH, fmap_cons. simpl.
  destruct (body x) as [t r]. simpl in *. subst r.
  unfold mbind, run_bind. reflexivity.
Qed.

Lemma show_node_both_fails (w : world) (m_b m_p : WritableManifest)
    (cmp : StateSelectorMethod) (reasons : gmap string (list string))
    (u : string) (l r : node) (found : list string) (e : exn) :
  nodes m_b !! u = Some l → nodes m_p !! u = Some r →
  reasons !! u = Some found →
  table_fails w
    (diffs (jsondiff_diff w) (properties_to_ignore w) (to_dict l) (to_dict r)) e →
  show_node w m_b m_p cmp reasons u =
    (both_events w cmp u found l r ++ [st_error_table e; st_divider], inr tt).
Proof.
  intros Hl Hr Hfound Hfail. run_steps. rewrite Hl, Hr, Hfound.
  destruct (nonempty (depends_on_macros l) && nonempty (modified_macros cmp));
    destruct Hfail as [Hf | (flattened & Hf & Hd)]; rewrite Hf; simpl;
    rewrite ?Hd; reflexivity.
Qed.

(** X17: a node of both manifests whose diff is flattened and turned
    into a table is shown with its reasons, the tree of its diffs, its
    right-side record and then the table of the flattened diff. *)
Theorem show_node_both_table (w : world) (m_b m_p : WritableManifest)
    (cmp : StateSelectorMethod) (reasons : gmap string (list string))
    (u : string) (l r : node) (found : list string)
    (flattened : gmap string pyval) (df : DataFrame) :
  nodes m_b !! u = Some l → nodes m_p !! u = Some r →
  reasons !! u = Some found →
  flatten_keys w
    (diffs (jsondiff_diff w) (properties_to_ignore w) (to_dict l) (to_dict r))
    = inr flattened →
  DataFrame_from_dict w flattened = inr df →
  show_node w m_b m_p cmp reasons u =
    (both_events w cmp u found l r ++ [st_dataframe df; st_divider], inr tt).
Proof.
  intros Hl Hr Hfound Hf Hd. run_steps. rewrite Hl, Hr, Hfound.
  destruct (nonempty (depends_on_macros l) && nonempty (modified_macros cmp));
    rewrite Hf; simpl; rewrite Hd; reflexivity.
Qed.

Lemma show_node_new (w : world) (m_b m_p : WritableManifest)
    (cmp : StateSelectorMethod) (reasons : gmap string (list string))
    (u : string) (l : node) (found : list string) :
  nodes m_b !! u = Some l → nodes m_p !! u = None →
  reasons !! u = Some found →
  show_node w m_b m_p cmp reasons u = (new_node_events u found, inr tt).
Proof. intros Hl Hr Hfound. run_steps. by rewrite Hl, Hr, Hfound. Qed.

(** With an entry in the index, the display of a node never raises,
    whatever the flattening does. *)
Lemma show_node_outcome (w : world) (m_b m_p : WritableManifest)
    (cmp : StateSelectorMethod) (reasons : gmap string (list string))
    (u : string) :
  is_Some (reasons !! u) → (show_node w m_b m_p cmp reasons u).2 = inr tt.
Proof.
  intros [found Hfound]. run_steps. rewrite Hfound.
  destruct (nodes m_b !! u) as [l |], (nodes m_p !! u) as [r |]; simpl; try done.
  destruct (nonempty (depends_on_macros l) && nonempty (modified_macros cmp));
    destruct (flatten_keys w _) as [e | flattened]; simpl; try done;
    destruct (DataFrame_from_dict w flattened); done.
Qed.

(** The display of a node shows no large-seed warning. *)
Lemma show_node_seed_warnings (w : world) (m_b m_p : WritableManifest)
    (cmp : StateSelectorMethod) (reasons : gmap string (list string))
    (u : string) :
  seed_warnings (show_node w m_b m_p cmp reasons u).1 = [].
Proof.
  run_steps.
  destruct (nodes m_b !! u) as [l |], (nodes m_p !! u) as [r |],
           (reasons !! u) as [found |]; simpl; try done.
  destruct (nonempty (depends_on_macros l) && nonempty (modified_macros cmp));
    destruct (flatten_keys w _) as [e | flattened]; simpl; try done;
    destruct (DataFrame_from_dict w flattened); done.
Qed.

Lemma seed_warnings_app (t1 t2 : list event) :
  seed_warnings (t1 ++ t2) = seed_warnings t1 ++ seed_warnings t2.
Proof. apply omap_app. Qed.

Lemma for_each_seed_warnings {A : Type} (xs : list A) (body : A → run unit) :
  (∀ x, seed_warnings (body x).1 = []) →
  seed_warnings (for_each xs body).1 = [].
Proof.
  intros Hbody. induction xs as [| x xs IH]; [done |].
  rewrite for_each_cons. specialize (Hbody x).
  destruct (body x) as [t [e | []]]; simpl in *; [done |].
  destruct (for_each xs body) as [t' r']. simpl in *.
  by rewrite seed_warnings_app, Hbody, IH.
Qed.

(** ** Selected nodes and the index *)

Lemma result_has_reason (cmp : StateSelectorMethod) (inc : gset string)
    (o u : string) :
  o ∈ state_options → u ∈ search cmp inc o →
  ∃ found, state_inclusion_reasons_by_node cmp inc !! u = Some found ∧ o ∈ found.
Proof.
  intros Ho Hu.
  assert (o ∈ reasons_for cmp inc state_options u) as Hin
    by (by apply elem_of_reasons_for).
  exists (reasons_for cmp inc state_options u). split; [| done].
  rewrite reasons_by_node_lookup.
  destruct (reasons_for cmp inc state_options u); [by apply elem_of_nil in Hin | done].
Qed.

Lemma indexed_is_result (cmp : StateSelectorMethod) (inc : gset string) (u : string) :
  u ∈ dom (state_inclusion_reasons_by_node cmp inc) →
  ∃ o, o ∈ state_options ∧ u ∈ search cmp inc o.
Proof.
  intros [found Hfound]%elem_of_dom.
  apply reasons_by_node_Some in Hfound as [-> Hne].
  destruct (reasons_for cmp inc state_options u) as [| o rest] eqn:E; [done |].
  exists o. apply (elem_of_reasons_for cmp inc state_options u o).
  rewrite E. by left.
Qed.

(** C9: the selected method being one of the eight options, every
    selected node has an entry in the index, which holds the selected
    method, so the lookups of the per-node display succeed. *)
Theorem selected_nodes_are_indexed (w : world) (m_b m_p : WritableManifest) :
  state_method w ∈ state_options →
  ∀ u : string, u ∈ selected_nodes w m_b m_p →
    ∃ found : list string,
      getitem
        (state_inclusion_reasons_by_node (state_comparator w m_b m_p)
           (included_nodes m_b)) u = ([], inr found) ∧
      state_method w ∈ found.
Proof.
  intros Hmethod u Hu.
  destruct (result_has_reason _ _ _ _ Hmethod Hu) as (found & Hfound & Hin).
  exists found. unfold getitem. by rewrite Hfound.
Qed.

Lemma selected_nodes_are_indexed_witness :
  ∃ found : list string,
    getitem
      (state_inclusion_reasons_by_node sample_comparator
         (included_nodes sample_branch)) "model.a" = ([], inr found) ∧
    "modified" ∈ found.
Proof.
  apply (selected_nodes_are_indexed sample_world sample_branch sample_production).
  - apply (bool_decide_unpack _). vm_compute. reflexivity.
  - apply (bool_decide_unpack _). vm_compute. reflexivity.
Defined.

(** ** A failing flat table *)

(** C6: the display of the selected nodes runs to its end, each node
    with its own events, whatever the flattening does; and a node of
    both manifests whose flat table fails is shown with its reasons,
    the tree of its diffs and its whole right-side record, then the
    error in place of the table, then the divider. *)
Theorem flatten_failure_is_isolated (w : world) (m_b m_p : WritableManifest) :
  state_method w ∈ state_options →
  let cmp := state_comparator w m_b m_p in
  let reasons := state_inclusion_reasons_by_node cmp (included_nodes m_b) in
  for_each (selected_nodes w m_b m_p) (show_node w m_b m_p cmp reasons) =
    (concat ((λ u, trace (show_node w m_b m_p cmp reasons u))
               <$> selected_nodes w m_b m_p),
     inr tt) ∧
  ∀ (u : string) (l r : node) (e : exn),
    u ∈ selected_nodes w m_b m_p →
    nodes m_b !! u = Some l → nodes m_p !! u = Some r →
    table_fails w
      (diffs (jsondiff_diff w) (properties_to_ignore w) (to_dict l) (to_dict r)) e →
    ∃ found : list string,
      show_node w m_b m_p cmp reasons u =
        (both_events w cmp u found l r ++ [st_error_table e; st_divider], inr tt).
Proof.
  intros Hmethod cmp reasons. split.
  - apply for_each_ok, Forall_forall. intros u Hu.
    apply show_node_outcome.
    destruct (result_has_reason _ _ _ _ Hmethod Hu) as (found & Hfound & _).
    by exists found.
  - intros u l r e Hu Hl Hr Hfail.
    destruct (result_has_reason _ _ _ _ Hmethod Hu) as (found & Hfound & _).
    exists found. by apply show_node_both_fails.
Qed.

Lemma flatten_failure_is_isolated_witness :
  displayed_ids
    (for_each (selected_nodes sample_world sample_branch sample_production)
       (show_node sample_world sample_branch sample_production sample_comparator
          (state_inclusion_reasons_by_node sample_comparator
             (included_nodes sample_branch)))).1
    = ["model.c"; "model.a"] ∧
  ∃ found : list string,
    show_node sample_world sample_branch sample_production sample_comparator
      (state_inclusion_reasons_by_node sample_comparator
         (included_nodes sample_branch)) "model.c" =
      (both_events sample_world sample_comparator "model.c" found
         (sample_node "select 3" "table" 1700000000)
         (sample_node "select 3" "view" 1600000000)
       ++ [st_error_table (OtherError "unhashable type"); st_divider], inr tt).
Proof.
  pose proof (flatten_failure_is_isolated sample_world sample_branch sample_production)
    as H.
  destruct H as [Hloop Hnode].
  { apply (bool_decide_unpack _). vm_compute. reflexivity. }
  split.
  - unfold sample_comparator. rewrite Hloop. vm_compute. reflexivity.
  - apply Hnode.
    + apply (bool_decide_unpack _). vm_compute. reflexivity.
    + vm_compute. reflexivity.
    + vm_compute. reflexivity.
    + left. vm_compute. reflexivity.
Defined.

(** ** Large seeds *)

Lemma seed_warnings_seed_warning_events (skipped : gset string) :
  seed_warnings (seed_warning_events skipped) =
    if decide (skipped = ∅) then [] else [skipped].
Proof.
  unfold seed_warning_events.
  destruct (decide (0 < size skipped)) as [Hpos | Hzero],
           (decide (skipped = ∅)) as [Hempty | Hne]; try done.
  - rewrite Hempty, size_empty in Hpos. lia.
  - exfalso. apply Hne, leibniz_equiv, size_empty_iff. lia.
Qed.

Lemma seed_warnings_macros_events (cmp : StateSelectorMethod) :
  seed_warnings (macros_events cmp) = [].
Proof. unfold macros_events. by destruct (nonempty (modified_macros cmp)). Qed.

Lemma seed_warnings_bar_chart (d : gmap string nat) (t : list event) :
  seed_warnings (st_bar_chart d :: t) = seed_warnings t.
Proof. done. Qed.

Lemma seed_warnings_header (body : string) (t : list event) :
  seed_warnings (st_header body :: t) = seed_warnings t.
Proof. done. Qed.

(** C4: loading a manifest removes the large seeds from the document
    first and normalises the pruned document, adding the removed ids
    to the set of skipped seeds; so the two manifests compared are the
    normalisations of the pruned documents, and the run shows one
    warning with the ids removed from both when there are any, and
    none when there are none. *)
Theorem large_seeds_are_elided_then_reported (w : world) (home : string)
    (data_p data_b : pyval) (m_p m_b : WritableManifest) :
  truthy (os_getenv w "DATACOVES__DBT_HOME") = Some home →
  os_path_exists w (os_path_join home ["logs"; "manifest.json"]) = true →
  os_path_exists w (os_path_join home ["target"; "manifest.json"]) = true →
  json_load w (os_path_join home ["logs"; "manifest.json"]) = inr data_p →
  upgrade_schema_version w (remove_large_seeds w data_p).1 = inr m_p →
  json_load w (os_path_join home ["target"; "manifest.json"]) = inr data_b →
  upgrade_schema_version w (remove_large_seeds w data_b).1 = inr m_b →
  let skipped := (remove_large_seeds w data_p).2 ∪ (remove_large_seeds w data_b).2 in
  (∀ (file_name : string) (skipped0 : gset string) (data : pyval),
     json_load w file_name = inr data →
     load_manifest w file_name skipped0 =
       ([open_file file_name],
        match upgrade_schema_version w (remove_large_seeds w data).1 with
        | inl e => inl e
        | inr m => inr (m, skipped0 ∪ (remove_large_seeds w data).2)
        end)) ∧
  find_manifests w =
    ([open_file (os_path_join home ["logs"; "manifest.json"]);
      open_file (os_path_join home ["target"; "manifest.json"])],
     inr (Globals skipped (Some m_p) (Some m_b) (Some []))) ∧
  seed_warnings (trace (differ w)) = if decide (skipped = ∅) then [] else [skipped].
Proof.
  intros Henv Hp Hb Hlp Hup Hlb Hub skipped.
  pose proof (find_manifests_loaded w home data_p data_b m_p m_b
                Henv Hp Hb Hlp Hup Hlb Hub) as Hfind.
  split; [intros file_name skipped0 data; apply load_manifest_pruned |].
  split; [exact Hfind |].
  rewrite differ_unfold, Hfind, bind_ok. unfold trace. simpl.
  rewrite compare_manifests_loaded. simpl.
  rewrite seed_warnings_app, seed_warnings_seed_warning_events.
  rewrite seed_warnings_bar_chart, seed_warnings_app, seed_warnings_macros_events.
  rewrite seed_warnings_header.
  rewrite for_each_seed_warnings by apply show_node_seed_warnings.
  by rewrite app_nil_r.
Qed.

Lemma large_seeds_are_elided_then_reported_witness :
  seed_warnings (trace (differ sample_world)) = [{["seed.big"]}].
Proof.
  refine (eq_trans
    (proj2 (proj2 (large_seeds_are_elided_then_reported sample_world sample_home
              (PStr sample_production_location) (PStr sample_branch_location)
              sample_production sample_branch _ _ _ _ _ _ _))) _);
    vm_compute; reflexivity.
Defined.

(** ** Nodes of one manifest only *)

(** C3: a node of one manifest only is to be reported as new or as
    deleted, and lines 154-155 hold the warning for a deleted node;
    but the candidates are the ids of the branch manifest alone, so
    the report of a deleted node is never reached: [model.old] is in
    the sample production manifest and not in the branch manifest, yet
    it has no entry in the index and is not among the nodes
    displayed. *)
Lemma deleted_node_not_reported :
  "model.old" ∈ dom (nodes sample_production) ∧
  ("model.old" ∉ dom (nodes sample_branch)) ∧
  state_inclusion_reasons_by_node sample_comparator (included_nodes sample_branch)
    !! "model.old" = None ∧
  "model.old" ∉ displayed_ids (trace (differ sample_world)).
Proof.
  split; [| split; [| split]].
  - apply (bool_decide_unpack _). vm_compute. reflexivity.
  - apply (bool_decide_unpack _). vm_compute. reflexivity.
  - vm_compute. reflexivity.
  - apply (bool_decide_unpack _). vm_compute. reflexivity.
Qed.

(** X18: what holds for the nodes of the branch manifest only.  The
    classification runs over the ids of the branch manifest, so with a
    comparator that returns candidates only, the index holds ids of
    the branch manifest only; with a comparator whose [new] category
    has the candidates that are missing from the production manifest,
    every node of the branch manifest only has an entry in the index,
    with [new] in it; and such a node, when displayed, is shown with
    the warning that it is missing from the production manifest (a new
    node) and with its reasons. *)
Theorem only_branch_nodes_are_classified (w : world) (m_b m_p : WritableManifest) :
  let cmp := state_comparator w m_b m_p in
  let reasons := state_inclusion_reasons_by_node cmp (included_nodes m_b) in
  (∀ o u, u ∈ search cmp (included_nodes m_b) o → u ∈ included_nodes m_b) →
  (∀ u, u ∈ included_nodes m_b → nodes m_p !! u = None →
        u ∈ search cmp (included_nodes m_b) "new") →
  (∀ u : string, u ∈ dom reasons → u ∈ dom (nodes m_b)) ∧
  (∀ u : string, u ∈ dom (nodes m_b) → nodes m_p !! u = None →
     ∃ found : list string, reasons !! u = Some found ∧ "new" ∈ found) ∧
  (∀ (u : string) (l : node) (found : list string),
     nodes m_b !! u = Some l → nodes m_p !! u = None →
     reasons !! u = Some found →
     show_node w m_b m_p cmp reasons u = (new_node_events u found, inr tt)).
Proof.
  intros cmp reasons Hsub Hnew. split; [| split].
  - intros u Hu. apply indexed_is_result in Hu as (o & _ & Hu).
    by apply Hsub in Hu.
  - intros u Hu Hp. apply result_has_reason.
    + apply (bool_decide_unpack _). vm_compute. reflexivity.
    + by apply Hnew.
  - intros u l found Hl Hr Hfound. by apply (show_node_new _ _ _ _ _ _ l).
Qed.

Lemma sample_search_included (current : WritableManifest)
    (previous_state : MockPreviousState) (arguments : string)
    (inc : gset string) (o u : string) :
  u ∈ search (sample_StateSelectorMethod current previous_state arguments) inc o →
  u ∈ inc.
Proof.
  simpl. intros [Hu _]%list_elem_of_filter.
  apply andb_true_iff in Hu as [Hu _]. by apply bool_decide_eq_true in Hu.
Qed.

Lemma sample_search_new (current : WritableManifest)
    (previous_state : MockPreviousState) (arguments : string) (u : string) :
  u ∈ included_nodes current →
  nodes (manifest previous_state) !! u = None →
  u ∈ search (sample_StateSelectorMethod current previous_state arguments)
        (included_nodes current) "new".
Proof.
  unfold included_nodes. intros Hu Hp. simpl. apply list_elem_of_filter. split.
  - rewrite bool_decide_eq_true_2 by done. simpl.
    apply elem_of_dom in Hu as [new Hnew]. by rewrite Hnew, Hp.
  - by apply elem_of_elements.
Qed.

Lemma only_branch_nodes_are_classified_witness :
  (∃ found : list string,
     state_inclusion_reasons_by_node
       (state_comparator sample_world_new sample_branch sample_production)
       (included_nodes sample_branch) !! "model.b" = Some found ∧
     "new" ∈ found) ∧
  show_node sample_world_new sample_branch sample_production
    (state_comparator sample_world_new sample_branch sample_production)
    (state_inclusion_reasons_by_node
       (state_comparator sample_world_new sample_branch sample_production)
       (included_nodes sample_branch))
    "model.b"
  = (new_node_events "model.b" ["new"], inr tt).
Proof.
  pose proof (only_branch_nodes_are_classified sample_world_new
                sample_branch sample_production) as H.
  destruct H as (_ & Hindex & Hshow).
  { intros o u. apply sample_search_included. }
  { intros u Hu Hp. by apply sample_search_new. }
  split.
  - apply Hindex.
    + apply (bool_decide_unpack _). vm_compute. reflexivity.
    + vm_compute. reflexivity.
  - apply (Hshow "model.b" (sample_node "select 4" "view" 1700000000) ["new"]);
      vm_compute; reflexivity.
Defined.

(** ** The default of the ignored fields *)





(** * Further properties *)

(** ** The environment variable and the files *)

(** X1: an empty [DATACOVES__DBT_HOME] is taken as unset: the run
    shows the warning that the variable is not set and raises
    [NameError] for [not_found_files]. *)
Theorem empty_home_raises_NameError (w : world) :
  os_getenv w "DATACOVES__DBT_HOME" = Some EmptyString →
  differ w =
    (page_top ++ [st_warning "DATACOVES__DBT_HOME environment variable not set."],
     inl (NameError "not_found_files")).
Proof.
  intros Henv. rewrite differ_unfold. unfold find_manifests.
  rewrite Henv. reflexivity.
Qed.

Lemma empty_home_raises_NameError_witness :
  outcome (differ sample_world_empty_home) = inl (NameError "not_found_files").
Proof.
  rewrite (empty_home_raises_NameError sample_world_empty_home).
  - reflexivity.
  - vm_compute. reflexivity.
Defined.

Lemma load_manifest_fails (w : world) (file_name : string) (skipped : gset string)
    (e : exn) :
  load_fails w file_name e →
  load_manifest w file_name skipped = ([open_file file_name], inl e).
Proof.
  intros [Hload | (data & Hload & Hup)].
  - unfold load_manifest. rewrite bind_emit, Hload. reflexivity.
  - rewrite (load_manifest_pruned w _ _ data Hload). by rewrite Hup.
Qed.

(** X2: what the search for the manifests leaves in the globals:
    [not_found_files] is assigned exactly when the variable is set to
    a non-empty value; when it is the empty list both manifests are
    assigned, and when it names a file neither is. *)
Theorem find_manifests_globals (w : world) (t : list event) (g : globals) :
  find_manifests w = (t, inr g) →
  (not_found_files g = None ↔
     truthy (os_getenv w "DATACOVES__DBT_HOME") = None) ∧
  (not_found_files g = Some [] →
     is_Some (production_manifest g) ∧ is_Some (branch_manifest g)) ∧
  (∀ missing, not_found_files g = Some missing → missing ≠ [] →
     production_manifest g = None ∧ branch_manifest g = None ∧
     skipped_large_seeds g = ∅).
Proof.
  unfold find_manifests.
  destruct (truthy (os_getenv w "DATACOVES__DBT_HOME")) as [home |].
  - destruct (os_path_exists w (os_path_join home ["logs"; "manifest.json"])) eqn:Hp,
             (os_path_exists w (os_path_join home ["target"; "manifest.json"])) eqn:Hb;
      simpl.
    + destruct (load_manifest w _ ∅) as [t1 [e1 | [m1 s1]]];
        unfold mbind, run_bind; simpl; [done |].
      destruct (load_manifest w _ s1) as [t2 [e2 | [m2 s2]]]; simpl; [done |].
      intros [= <- <-]. simpl. repeat split; try done; eauto; congruence.
    + intros [= <- <-]. simpl. repeat split; try done; congruence.
    + intros [= <- <-]. simpl. repeat split; try done; congruence.
    + intros [= <- <-]. simpl. repeat split; try done; congruence.
  - intros [= <- <-]. simpl. repeat split; done.
Qed.

Lemma find_manifests_globals_witness :
  is_Some (production_manifest
    (Globals {["seed.big"]} (Some sample_production) (Some sample_branch) (Some []))) ∧
  is_Some (branch_manifest
    (Globals {["seed.big"]} (Some sample_production) (Some sample_branch) (Some []))).
Proof.
  refine (proj1 (proj2 (find_manifests_globals sample_world
    [open_file sample_production_location; open_file sample_branch_location]
    (Globals {["seed.big"]} (Some sample_production) (Some sample_branch) (Some []))
    _)) _).
  - vm_compute. reflexivity.
  - reflexivity.
Defined.

(** ** Manifests that do not load *)

(** X3: when the production manifest does not load, the run ends with
    the exception of the load right after opening that file: the
    branch manifest is not opened and nothing is compared. *)
Theorem malformed_production_manifest_aborts (w : world) (home : string) (e : exn) :
  truthy (os_getenv w "DATACOVES__DBT_HOME") = Some home →
  os_path_exists w (os_path_join home ["logs"; "manifest.json"]) = true →
  os_path_exists w (os_path_join home ["target"; "manifest.json"]) = true →
  load_fails w (os_path_join home ["logs"; "manifest.json"]) e →
  differ w =
    (page_top ++ [open_file (os_path_join home ["logs"; "manifest.json"])], inl e).
Proof.
  intros Henv Hp Hb Hfail. rewrite differ_unfold. unfold find_manifests.
  rewrite Henv, Hp, Hb. simpl andb. cbv iota.
  by rewrite (load_manifest_fails w _ ∅ e Hfail).
Qed.

Lemma malformed_production_manifest_aborts_witness :
  differ sample_world_malformed_production =
    (page_top ++ [open_file sample_production_location],
     inl (OtherError "Expecting value: line 1 column 1 (char 0)")).
Proof.
  apply (malformed_production_manifest_aborts sample_world_malformed_production
           sample_home).
  - vm_compute. reflexivity.
  - vm_compute. reflexivity.
  - vm_compute. reflexivity.
  - left. vm_compute. reflexivity.
Defined.

(** X4: when the production manifest loads and the branch manifest
    does not, the run ends with the exception of the second load after
    opening both files, and nothing is compared. *)
Theorem malformed_branch_manifest_aborts (w : world) (home : string)
    (data_p : pyval) (m_p : WritableManifest) (e : exn) :
  truthy (os_getenv w "DATACOVES__DBT_HOME") = Some home →
  os_path_exists w (os_path_join home ["logs"; "manifest.json"]) = true →
  os_path_exists w (os_path_join home ["target"; "manifest.json"]) = true →
  json_load w (os_path_join home ["logs"; "manifest.json"]) = inr data_p →
  upgrade_schema_version w (remove_large_seeds w data_p).1 = inr m_p →
  load_fails w (os_path_join home ["target"; "manifest.json"]) e →
  differ w =
    (page_top ++
       [open_file (os_path_join home ["logs"; "manifest.json"]);
        open_file (os_path_join home ["target"; "manifest.json"])],
     inl e).
Proof.
  intros Henv Hp Hb Hlp Hup Hfail. rewrite differ_unfold. unfold find_manifests.
  rewrite Henv, Hp, Hb. simpl andb. cbv iota.
  rewrite (load_manifest_ok w _ ∅ data_p m_p Hlp Hup), bind_ok. simpl.
  by rewrite (load_manifest_fails w _ _ e Hfail).
Qed.

Lemma malformed_branch_manifest_aborts_witness :
  differ sample_world_rejected_branch =
    (page_top ++
       [open_file sample_production_location; open_file sample_branch_location],
     inl (OtherError "unsupported manifest version")).
Proof.
  apply (malformed_branch_manifest_aborts sample_world_rejected_branch
           sample_home (PStr sample_production_location) sample_production).
  - vm_compute. reflexivity.
  - vm_compute. reflexivity.
  - vm_compute. reflexivity.
  - vm_compute. reflexivity.
  - vm_compute. reflexivity.
  - right. exists (PStr sample_branch_location). split; vm_compute; reflexivity.
Defined.

(** ** A comparison that runs to its end *)

Lemma selected_show_node_outcome (w : world) (m_b m_p : WritableManifest) :
  state_method w ∈ state_options →
  Forall
    (λ u, (show_node w m_b m_p (state_comparator w m_b m_p)
             (state_inclusion_reasons_by_node (state_comparator w m_b m_p)
                (included_nodes m_b)) u).2 = inr tt)
    (selected_nodes w m_b m_p).
Proof.
  intros Hmethod. apply Forall_forall. intros u Hu. apply show_node_outcome.
  destruct (result_has_reason _ _ _ _ Hmethod Hu) as (found & Hfound & _).
  by exists found.
Qed.

Lemma differ_loaded (w : world) (home : string)
    (data_p data_b : pyval) (m_p m_b : WritableManifest) :
  truthy (os_getenv w "DATACOVES__DBT_HOME") = Some home →
  os_path_exists w (os_path_join home ["logs"; "manifest.json"]) = true →
  os_path_exists w (os_path_join home ["target"; "manifest.json"]) = true →
  json_load w (os_path_join home ["logs"; "manifest.json"]) = inr data_p →
  upgrade_schema_version w (remove_large_seeds w data_p).1 = inr m_p →
  json_load w (os_path_join home ["target"; "manifest.json"]) = inr data_b →
  upgrade_schema_version w (remove_large_seeds w data_b).1 = inr m_b →
  state_method w ∈ state_options →
  differ w =
    (page_top ++
       [open_file (os_path_join home ["logs"; "manifest.json"]);
        open_file (os_path_join home ["target"; "manifest.json"])] ++
       comparison_events w
         ((remove_large_seeds w data_p).2 ∪ (remove_large_seeds w data_b).2)
         m_b m_p,
     inr tt).
Proof.
  intros Henv Hp Hb Hlp Hup Hlb Hub Hmethod.
  rewrite differ_unfold.
  rewrite (find_manifests_loaded w home data_p data_b m_p m_b
             Henv Hp Hb Hlp Hup Hlb Hub), bind_ok.
  simpl. rewrite compare_manifests_loaded.
  rewrite (for_each_ok _ _ (selected_show_node_outcome w m_b m_p Hmethod)).
  reflexivity.
Qed.

(** X5: when both manifests load and the method is one of the eight
    options, the run ends normally, and its output is, in this order,
    the page set-up, the large-seed warning if any, the bar chart of
    the counts, the modified macros if any, the header with the
    number of selected nodes, and the display of each selected node. *)
Theorem loaded_run_completes (w : world) (home : string)
    (data_p data_b : pyval) (m_p m_b : WritableManifest) :
  truthy (os_getenv w "DATACOVES__DBT_HOME") = Some home →
  os_path_exists w (os_path_join home ["logs"; "manifest.json"]) = true →
  os_path_exists w (os_path_join home ["target"; "manifest.json"]) = true →
  json_load w (os_path_join home ["logs"; "manifest.json"]) = inr data_p →
  upgrade_schema_version w (remove_large_seeds w data_p).1 = inr m_p →
  json_load w (os_path_join home ["target"; "manifest.json"]) = inr data_b →
  upgrade_schema_version w (remove_large_seeds w data_b).1 = inr m_b →
  state_method w ∈ state_options →
  outcome (differ w) = inr tt ∧
  trace (differ w) =
    page_top ++
    [open_file (os_path_join home ["logs"; "manifest.json"]);
     open_file (os_path_join home ["target"; "manifest.json"])] ++
    comparison_events w
      ((remove_large_seeds w data_p).2 ∪ (remove_large_seeds w data_b).2)
      m_b m_p.
Proof.
  intros Henv Hp Hb Hlp Hup Hlb Hub Hmethod.
  by rewrite (differ_loaded w home data_p data_b m_p m_b
                Henv Hp Hb Hlp Hup Hlb Hub Hmethod).
Qed.

Lemma loaded_run_completes_witness :
  outcome (differ sample_world) = inr tt.
Proof.
  refine (proj1 (loaded_run_completes sample_world sample_home
    (PStr sample_production_location) (PStr sample_branch_location)
    sample_production sample_branch _ _ _ _ _ _ _ _)).
  - vm_compute. reflexivity.
  - vm_compute. reflexivity.
  - vm_compute. reflexivity.
  - vm_compute. reflexivity.
  - vm_compute. reflexivity.
  - vm_compute. reflexivity.
  - vm_compute. reflexivity.
  - apply (bool_decide_unpack _). vm_compute. reflexivity.
Defined.

Lemma displayed_ids_app (t1 t2 : list event) :
  displayed_ids (t1 ++ t2) = displayed_ids t1 ++ displayed_ids t2.
Proof. apply omap_app. Qed.

(** The display of a node shows one subheader, the node's. *)
Lemma show_node_displayed_ids (w : world) (m_b m_p : WritableManifest)
    (cmp : StateSelectorMethod) (reasons : gmap string (list string))
    (u : string) :
  displayed_ids (show_node w m_b m_p cmp reasons u).1 = [u].
Proof.
  run_steps.
  destruct (nodes m_b !! u) as [l |], (nodes m_p !! u) as [r |],
           (reasons !! u) as [found |]; simpl; try done.
  destruct (nonempty (depends_on_macros l) && nonempty (modified_macros cmp));
    destruct (flatten_keys w _) as [e | flattened]; simpl; try done;
    destruct (DataFrame_from_dict w flattened); done.
Qed.

Lemma displayed_ids_concat (f : string → list event) (us : list string) :
  (∀ u, displayed_ids (f u) = [u]) →
  displayed_ids (concat (f <$> us)) = us.
Proof.
  intros Hf. induction us as [| u us IH]; [done |].
  rewrite fmap_cons. simpl. by rewrite displayed_ids_app, Hf, IH.
Qed.

Lemma displayed_ids_comparison_events (w : world) (skipped : gset string)
    (m_b m_p : WritableManifest) :
  displayed_ids (comparison_events w skipped m_b m_p) = selected_nodes w m_b m_p.
Proof.
  unfold comparison_events. rewrite !displayed_ids_app.
  rewrite displayed_ids_concat
    by (intros u; unfold trace; apply show_node_displayed_ids).
  unfold seed_warning_events, macros_events.
  destruct (decide (0 < size skipped)),
           (nonempty (modified_macros (state_comparator w m_b m_p))); done.
Qed.

(** X6: in a run that loads both manifests, the nodes displayed are
    the selected nodes, each once and in the order of the search, so
    the number in the header is the number of node sections. *)
Theorem displayed_nodes_are_the_selected (w : world) (home : string)
    (data_p data_b : pyval) (m_p m_b : WritableManifest) :
  truthy (os_getenv w "DATACOVES__DBT_HOME") = Some home →
  os_path_exists w (os_path_join home ["logs"; "manifest.json"]) = true →
  os_path_exists w (os_path_join home ["target"; "manifest.json"]) = true →
  json_load w (os_path_join home ["logs"; "manifest.json"]) = inr data_p →
  upgrade_schema_version w (remove_large_seeds w data_p).1 = inr m_p →
  json_load w (os_path_join home ["target"; "manifest.json"]) = inr data_b →
  upgrade_schema_version w (remove_large_seeds w data_b).1 = inr m_b →
  state_method w ∈ state_options →
  displayed_ids (trace (differ w)) = selected_nodes w m_b m_p ∧
  st_header (selected_header (length (displayed_ids (trace (differ w)))))
    ∈ trace (differ w).
Proof.
  intros Henv Hp Hb Hlp Hup Hlb Hub Hmethod.
  rewrite (differ_loaded w home data_p data_b m_p m_b
             Henv Hp Hb Hlp Hup Hlb Hub Hmethod).
  unfold trace. cbn [fst].
  assert (displayed_ids
            (page_top ++
             [open_file (os_path_join home ["logs"; "manifest.json"]);
              open_file (os_path_join home ["target"; "manifest.json"])] ++
             comparison_events w
               ((remove_large_seeds w data_p).2 ∪ (remove_large_seeds w data_b).2)
               m_b m_p) = selected_nodes w m_b m_p) as Hids.
  { rewrite !displayed_ids_app, displayed_ids_comparison_events. done. }
  split; [exact Hids |]. rewrite Hids.
  apply elem_of_app. right. apply elem_of_app. right.
  unfold comparison_events.
  apply elem_of_app. right. apply elem_of_app. right.
  apply elem_of_app. right. apply elem_of_app. left. by left.
Qed.

Lemma displayed_nodes_are_the_selected_witness :
  displayed_ids (trace (differ sample_world)) = ["model.c"; "model.a"].
Proof.
  refine (eq_trans (proj1 (displayed_nodes_are_the_selected sample_world sample_home
    (PStr sample_production_location) (PStr sample_branch_location)
    sample_production sample_branch _ _ _ _ _ _ _ _)) _).
  - vm_compute. reflexivity.
  - vm_compute. reflexivity.
  - vm_compute. reflexivity.
  - vm_compute. reflexivity.
  - vm_compute. reflexivity.
  - vm_compute. reflexivity.
  - vm_compute. reflexivity.
  - apply (bool_decide_unpack _). vm_compute. reflexivity.
  - vm_compute. reflexivity.
Defined.

(** ** The branch for deleted nodes *)

Ltac not_among :=
  let H := fresh in
  intros H;
  repeat (apply elem_of_cons in H as [H | H]; [discriminate H |]);
  by apply elem_of_nil in H.

Lemma elem_of_concat {A : Type} (x : A) (ls : list (list A)) :
  x ∈ concat ls → ∃ l, x ∈ l ∧ l ∈ ls.
Proof.
  induction ls as [| l ls IH]; simpl.
  - by intros ?%elem_of_nil.
  - intros [H | H]%elem_of_app.
    + exists l. split; [done | by left].
    + destruct (IH H) as (l' & ? & ?). exists l'. split; [done | by right].
Qed.

(** A node of the branch manifest is never shown as deleted. *)
Lemma show_node_not_deleted (w : world) (m_b m_p : WritableManifest)
    (cmp : StateSelectorMethod) (reasons : gmap string (list string))
    (u : string) :
  u ∈ dom (nodes m_b) →
  deleted_node_warning ∉ (show_node w m_b m_p cmp reasons u).1.
Proof.
  intros [l Hl]%elem_of_dom. unfold deleted_node_warning. run_steps. rewrite Hl.
  destruct (nodes m_p !! u) as [r |], (reasons !! u) as [found |]; simpl;
    try not_among.
  destruct (nonempty (depends_on_macros l) && nonempty (modified_macros cmp));
    destruct (flatten_keys w _) as [e | flattened]; simpl; try not_among;
    destruct (DataFrame_from_dict w flattened); simpl; not_among.
Qed.

(** X7: in a run that loads both manifests, with a comparator that
    returns candidates only, the warning for a node missing from the
    branch manifest (a deleted node) is never shown: every selected
    node is a node of the branch manifest. *)
Theorem deleted_node_warning_never_shown (w : world) (home : string)
    (data_p data_b : pyval) (m_p m_b : WritableManifest) :
  truthy (os_getenv w "DATACOVES__DBT_HOME") = Some home →
  os_path_exists w (os_path_join home ["logs"; "manifest.json"]) = true →
  os_path_exists w (os_path_join home ["target"; "manifest.json"]) = true →
  json_load w (os_path_join home ["logs"; "manifest.json"]) = inr data_p →
  upgrade_schema_version w (remove_large_seeds w data_p).1 = inr m_p →
  json_load w (os_path_join home ["target"; "manifest.json"]) = inr data_b →
  upgrade_schema_version w (remove_large_seeds w data_b).1 = inr m_b →
  state_method w ∈ state_options →
  (∀ o u, u ∈ search (state_comparator w m_b m_p) (included_nodes m_b) o →
          u ∈ included_nodes m_b) →
  deleted_node_warning ∉ trace (differ w).
Proof.
  intros Henv Hp Hb Hlp Hup Hlb Hub Hmethod Hsub.
  rewrite (differ_loaded w home data_p data_b m_p m_b
             Henv Hp Hb Hlp Hup Hlb Hub Hmethod).
  unfold trace, deleted_node_warning. cbn [fst]. intros H.
  do 7 (apply elem_of_cons in H as [H | H]; [discriminate H |]).
  apply elem_of_app in H as [H | H].
  - revert H. unfold seed_warning_events. destruct (decide _); not_among.
  - apply elem_of_app in H as [H | H]; [revert H; not_among |].
    apply elem_of_app in H as [H | H].
    + revert H. unfold macros_events. destruct (nonempty _); not_among.
    + apply elem_of_app in H as [H | H]; [revert H; not_among |].
      apply elem_of_concat in H as (t & Hin & Ht).
      apply list_elem_of_fmap in Ht as (u & -> & Hu).
      apply (show_node_not_deleted w m_b m_p (state_comparator w m_b m_p)
               (state_inclusion_reasons_by_node (state_comparator w m_b m_p)
                  (included_nodes m_b)) u); [| exact Hin].
      apply (Hsub (state_method w) u Hu).
Qed.

Lemma deleted_node_warning_never_shown_witness :
  deleted_node_warning ∉ trace (differ sample_world).
Proof.
  apply (deleted_node_warning_never_shown sample_world sample_home
    (PStr sample_production_location) (PStr sample_branch_location)
    sample_production sample_branch).
  - vm_compute. reflexivity.
  - vm_compute. reflexivity.
  - vm_compute. reflexivity.
  - vm_compute. reflexivity.
  - vm_compute. reflexivity.
  - vm_compute. reflexivity.
  - vm_compute. reflexivity.
  - apply (bool_decide_unpack _). vm_compute. reflexivity.
  - intros o u. apply sample_search_included.
Defined.

(** ** A node without an entry in the index *)



(** ** More on the classification *)

(** X9: the dictionary of counts has exactly the eight options as its
    keys, whatever the comparator finds: the chart has eight bars. *)
Theorem counts_has_the_eight_options (cmp : StateSelectorMethod) (inc : gset string) :
  dom (state_inclusion_counts cmp inc) = list_to_set state_options ∧
  size (state_inclusion_counts cmp inc) = 8.
Proof.
  assert (dom (state_inclusion_counts cmp inc) = list_to_set state_options) as Hdom.
  { apply set_eq. intros o. rewrite elem_of_dom, elem_of_list_to_set.
    unfold state_inclusion_counts, classify. split.
    - intros [c Hc]. destruct (decide (o ∈ state_options)) as [| Hnot]; [done |].
      rewrite (classify_from_counts_other cmp inc state_options (∅, ∅) o Hnot) in Hc.
      done.
    - intros Ho. eexists.
      by apply classify_from_counts; [apply state_options_NoDup |]. }
  split; [done |].
  rewrite <- size_dom, Hdom.
  rewrite size_list_to_set by apply state_options_NoDup. reflexivity.
Qed.

(** X10: a node has an entry in the index exactly when some category
    has it among its results. *)
Theorem index_has_exactly_the_results (cmp : StateSelectorMethod) (inc : gset string)
    (u : string) :
  u ∈ dom (state_inclusion_reasons_by_node cmp inc) ↔
    ∃ o, o ∈ state_options ∧ u ∈ search cmp inc o.
Proof.
  split.
  - apply indexed_is_result.
  - intros (o & Ho & Hu).
    destruct (result_has_reason cmp inc o u Ho Hu) as (found & Hfound & _).
    apply elem_of_dom. by exists found.
Qed.

Lemma count_in_NoDup (u : string) (l : list string) :
  NoDup l → count_in u l = if decide (u ∈ l) then 1 else 0.
Proof.
  induction 1 as [| x l Hx Hnd IH].
  - by rewrite decide_False by apply not_elem_of_nil.
  - rewrite count_in_cons, IH. destruct (decide (x = u)) as [-> | Hne].
    + rewrite decide_False by done. by rewrite decide_True by left.
    + destruct (decide (u ∈ l)) as [Hin | Hnin].
      * by rewrite decide_True by (by right).
      * rewrite decide_False; [done |]. intros [-> | ?]%elem_of_cons; done.
Qed.

Lemma reasons_for_filter (cmp : StateSelectorMethod) (inc : gset string)
    (options : list string) (u : string) :
  (∀ o, NoDup (search cmp inc o)) →
  reasons_for cmp inc options u = filter (λ o, u ∈ search cmp inc o) options.
Proof.
  intros Hnd. induction options as [| o options IH]; [done |].
  unfold reasons_for in *. simpl. rewrite IH, (count_in_NoDup u _ (Hnd o)).
  destruct (decide (u ∈ search cmp inc o)) as [Hin | Hnin].
  - by rewrite filter_cons_True.
  - by rewrite filter_cons_False.
Qed.

(** X11: when no result names a node twice, the reasons of a node are
    the categories that have it among their results, each once and in
    the order of the list of options. *)
Theorem reasons_follow_the_options (cmp : StateSelectorMethod) (inc : gset string)
    (u : string) (found : list string) :
  (∀ o, NoDup (search cmp inc o)) →
  state_inclusion_reasons_by_node cmp inc !! u = Some found →
  found = filter (λ o, u ∈ search cmp inc o) state_options ∧
  NoDup found ∧ found ≠ [].
Proof.
  intros Hnd Hfound. apply reasons_by_node_Some in Hfound as [-> Hne].
  rewrite reasons_for_filter in * by done. split; [done |]. split; [| done].
  apply NoDup_filter, state_options_NoDup.
Qed.

Lemma sample_search_NoDup (current : WritableManifest)
    (previous_state : MockPreviousState) (arguments : string)
    (inc : gset string) (o : string) :
  NoDup (search (sample_StateSelectorMethod current previous_state arguments) inc o).
Proof. simpl. apply NoDup_filter, NoDup_elements. Qed.

Lemma reasons_follow_the_options_witness :
  ["modified"; "modified.body"] =
    filter (λ o, "model.a" ∈ search sample_comparator (included_nodes sample_branch) o)
      state_options.
Proof.
  refine (proj1 (reasons_follow_the_options sample_comparator
                   (included_nodes sample_branch) "model.a"
                   ["modified"; "modified.body"] _ _)).
  - intros o. apply sample_search_NoDup.
  - vm_compute. reflexivity.
Defined.

(** X12: with a comparator that returns candidates only and names no
    node twice, no count is greater than the number of nodes of the
    branch manifest. *)
Theorem counts_bounded_by_candidates (cmp : StateSelectorMethod) (inc : gset string)
    (o : string) (c : nat) :
  (∀ o u, u ∈ search cmp inc o → u ∈ inc) →
  (∀ o, NoDup (search cmp inc o)) →
  state_inclusion_counts cmp inc !! o = Some c →
  (c ≤ size inc)%nat.
Proof.
  intros Hsub Hnd Hc.
  destruct (decide (o ∈ state_options)) as [Ho | Hnot].
  - unfold state_inclusion_counts, classify in Hc.
    rewrite (classify_from_counts cmp inc state_options (∅, ∅) o
               state_options_NoDup Ho) in Hc.
    injection Hc as <-.
    rewrite <- (size_list_to_set (C := gset string)) by apply Hnd.
    apply subseteq_size. intros u Hu%elem_of_list_to_set. by apply (Hsub o).
  - unfold state_inclusion_counts, classify in Hc.
    by rewrite (classify_from_counts_other cmp inc state_options (∅, ∅) o Hnot) in Hc.
Qed.

Lemma counts_bounded_by_candidates_witness :
  (2 ≤ size (included_nodes sample_branch))%nat.
Proof.
  apply (counts_bounded_by_candidates sample_comparator
           (included_nodes sample_branch) "modified" 2).
  - intros o u. apply sample_search_included.
  - intros o. apply sample_search_NoDup.
  - vm_compute. reflexivity.
Defined.

(** ** More on the node differ *)

Lemma diff_condition_cons (p : string) (ignored : list string)
    (left_dict right_dict : gmap string pyval) (k : string) :
  diff_condition (p :: ignored) left_dict right_dict k =
    bool_decide (k ≠ p) && diff_condition ignored left_dict right_dict k.
Proof.
  unfold diff_condition. rewrite andb_assoc. f_equal.
  destruct (decide (k = p)) as [-> | Hne].
  - rewrite bool_decide_eq_false_2; [| intros H; apply H; left].
    by rewrite (bool_decide_eq_false_2 (p ≠ p)) by (intros H; apply H; done).
  - rewrite (bool_decide_eq_true_2 (k ≠ p)) by done. simpl.
    apply bool_decide_ext. rewrite not_elem_of_cons. tauto.
Qed.

Lemma diffs_cons_ignored (jd : pyval → pyval → pyval)
    (p : string) (ignored : list string) (left_dict right_dict : gmap string pyval) :
  diffs jd (p :: ignored) left_dict right_dict =
    delete p (diffs jd ignored left_dict right_dict).
Proof.
  apply map_eq. intros k. rewrite lookup_delete, !diffs_lookup, diff_condition_cons.
  destruct (decide (p = k)) as [-> | Hne].
  - rewrite (bool_decide_eq_false_2 (k ≠ k)) by (intros H; by apply H).
    simpl. by rewrite andb_false_r.
  - rewrite (bool_decide_eq_true_2 (k ≠ p)) by (intros ->; done). done.
Qed.

(** X13: ignoring one more property takes the entry of that property
    out of the diff mapping and leaves every other entry as it was. *)
Theorem ignoring_a_property_deletes_its_entry (jd : pyval → pyval → pyval)
    (p : string) (ignored : list string) (left_dict right_dict : gmap string pyval) :
  diffs jd (p :: ignored) left_dict right_dict =
    delete p (diffs jd ignored left_dict right_dict).
Proof. apply diffs_cons_ignored. Qed.

Lemma diffs_lookup_changed (jd : pyval → pyval → pyval) (ignored : list string)
    (left_dict right_dict : gmap string pyval) (k : string) (l r : pyval) :
  k ∉ ignored →
  left_dict !! k = Some l → right_dict !! k = Some r →
  py_ne l r = true →
  diffs jd ignored left_dict right_dict !! k = Some (jd l r).
Proof.
  intros Hi Hl Hr Hne. rewrite diffs_lookup.
  rewrite bool_decide_eq_true_2
    by (unfold all_keys; apply elem_of_union_l, elem_of_dom; eauto).
  unfold diff_condition, diff_entry, dict_get. rewrite Hl, Hr, Hne. simpl.
  by rewrite bool_decide_eq_true_2.
Qed.

Lemma diffs_same_outside (jd : pyval → pyval → pyval) (ignored : list string)
    (left_dict right_dict : gmap string pyval) :
  same_outside ignored left_dict right_dict = true →
  diffs jd ignored left_dict right_dict = ∅.
Proof.
  intros Hsame. apply map_eq. intros k. rewrite lookup_empty, diffs_lookup.
  destruct (bool_decide (k ∈ all_keys left_dict right_dict)) eqn:Hk; [| done].
  apply bool_decide_eq_true in Hk.
  by rewrite (same_outside_no_condition _ _ _ _ Hsame Hk).
Qed.

(** X14: for a property that both records have with unequal values
    and that is not ignored, the entry is the diff of the value of the
    left (branch) record against the value of the right (production)
    record. *)
Theorem changed_field_entry (jd : pyval → pyval → pyval) (ignored : list string)
    (left_dict right_dict : gmap string pyval) (k : string) (l r : pyval) :
  k ∉ ignored →
  left_dict !! k = Some l → right_dict !! k = Some r →
  py_ne l r = true →
  diffs jd ignored left_dict right_dict !! k = Some (jd l r).
Proof. apply diffs_lookup_changed. Qed.

Lemma changed_field_entry_witness :
  diffs pair_diff ignore_default
    (to_dict (sample_node "select 2" "view" 1700000000))
    (to_dict (sample_node "select 1" "view" 1600000000)) !! "raw_code"
  = Some (PList [PStr "select 2"; PStr "select 1"]).
Proof.
  apply (changed_field_entry pair_diff ignore_default _ _ "raw_code"
           (PStr "select 2") (PStr "select 1")).
  - apply (bool_decide_unpack _). vm_compute. reflexivity.
  - vm_compute. reflexivity.
  - vm_compute. reflexivity.
  - vm_compute. reflexivity.
Defined.

(** X16: when two records differ in one property only, apart from
    the ignored ones, ignoring that property as well empties the diff,
    and the diff without it ignored has that property as its only
    entry. *)
Theorem unignoring_reveals_the_property (jd : pyval → pyval → pyval)
    (p : string) (ignored : list string) (left_dict right_dict : gmap string pyval)
    (l r : pyval) :
  same_outside (p :: ignored) left_dict right_dict = true →
  p ∉ ignored →
  left_dict !! p = Some l → right_dict !! p = Some r →
  py_ne l r = true →
  diffs jd (p :: ignored) left_dict right_dict = ∅ ∧
  diffs jd ignored left_dict right_dict = {[p := jd l r]}.
Proof.
  intros Hsame Hp Hl Hr Hne.
  pose proof (diffs_same_outside jd _ _ _ Hsame) as Hempty.
  split; [exact Hempty |].
  apply map_eq. intros k. destruct (decide (p = k)) as [<- | Hk].
  - rewrite lookup_singleton_eq. by apply diffs_lookup_changed.
  - rewrite lookup_singleton_ne by done.
    rewrite <- (lookup_delete_ne _ p k Hk), <- diffs_cons_ignored, Hempty.
    apply lookup_empty.
Qed.

Lemma unignoring_reveals_the_property_witness :
  diffs pair_diff [] example_left example_right
    = {["created_at" := PList [PInt 1700000000; PInt 1600000000]]}.
Proof.
  refine (proj2 (unignoring_reveals_the_property pair_diff "created_at" []
                   example_left example_right
                   (PInt 1700000000) (PInt 1600000000) _ _ _ _ _)).
  - vm_compute. reflexivity.
  - apply not_elem_of_nil.
  - vm_compute. reflexivity.
  - vm_compute. reflexivity.
  - vm_compute. reflexivity.
Defined.

(** ** The locations of the two manifests *)

Lemma append_inj_r (p a b : string) : p +:+ a = p +:+ b → a = b.
Proof. apply String.app_inj. Qed.

Lemma append_assoc (a b c : string) : (a +:+ b) +:+ c = a +:+ (b +:+ c).
Proof.
  induction a as [| x a IH]; [done |].
  change (String x ((a +:+ b) +:+ c) = String x (a +:+ (b +:+ c))).
  by rewrite IH.
Qed.

Lemma append_not_empty (p s : string) : s ≠ EmptyString → p +:+ s ≠ EmptyString.
Proof. intros Hs. destruct p; simpl; [done | discriminate]. Qed.

Lemma ends_with_slash_append (p s : string) :
  s ≠ EmptyString → ends_with_slash (p +:+ s) = ends_with_slash s.
Proof.
  intros Hs. induction p as [| c p IH]; [done |].
  simpl. pose proof (append_not_empty p s Hs) as Hne.
  destruct (p +:+ s) eqn:E; [done | exact IH].
Qed.

Lemma ends_with_slash_true (s : string) :
  ends_with_slash s = true ↔ ∃ p, s = p +:+ "/".
Proof.
  split.
  - induction s as [| c s IH]; [done |].
    destruct s as [| d s].
    + simpl. intros Hc%Ascii.eqb_eq. subst c. by exists EmptyString.
    + intros H. destruct (IH H) as [p Hp]. exists (String c p).
      change (String c (String d s) = String c (p +:+ "/")). by rewrite Hp.
  - intros [p ->]. by rewrite ends_with_slash_append.
Qed.

Lemma path_join2_folder (path folder : string) :
  starts_with_slash folder = false →
  path_join2 path folder =
    if String.eqb path EmptyString || ends_with_slash path
    then path +:+ folder else path +:+ "/" +:+ folder.
Proof. intros Hstart. unfold path_join2. by rewrite Hstart. Qed.

Lemma path_join2_file (prefix folder : string) :
  folder ≠ EmptyString → ends_with_slash folder = false →
  path_join2 (prefix +:+ folder) "manifest.json" =
    prefix +:+ folder +:+ "/manifest.json".
Proof.
  intros Hne Hend. rewrite path_join2_folder by done.
  rewrite ends_with_slash_append, Hend by done.
  pose proof (append_not_empty prefix folder Hne) as Hnonempty.
  destruct (prefix +:+ folder) eqn:E; [done |]. simpl orb. cbv iota.
  rewrite <- E. by rewrite append_assoc.
Qed.

Lemma os_path_join_manifest (home folder : string) :
  folder ≠ EmptyString → starts_with_slash folder = false →
  ends_with_slash folder = false →
  os_path_join home [folder; "manifest.json"] =
    if String.eqb home EmptyString || ends_with_slash home
    then home +:+ folder +:+ "/manifest.json"
    else home +:+ "/" +:+ folder +:+ "/manifest.json".
Proof.
  intros Hne Hstart Hend.
  change (os_path_join home [folder; "manifest.json"])
    with (path_join2 (path_join2 home folder) "manifest.json").
  rewrite (path_join2_folder home folder Hstart).
  destruct (String.eqb home EmptyString || ends_with_slash home).
  - by apply path_join2_file.
  - rewrite <- (append_assoc home "/" folder).
    rewrite path_join2_file by done. by rewrite !append_assoc.
Qed.

(** X15: the production manifest is looked for under [logs] and the
    branch manifest under [target] of the project directory.  When the
    directory is empty or ends with a slash (it is some [p] followed by
    a slash) the folder follows it at once; in every other case one
    slash is put between them.  The two locations are never the same
    file. *)
Theorem manifest_locations (home : string) :
  (ends_with_slash home = true ↔ ∃ p, home = p +:+ "/") ∧
  (home = EmptyString ∨ ends_with_slash home = true →
     os_path_join home ["logs"; "manifest.json"]
       = home +:+ "logs/manifest.json" ∧
     os_path_join home ["target"; "manifest.json"]
       = home +:+ "target/manifest.json") ∧
  (home ≠ EmptyString → ends_with_slash home = false →
     os_path_join home ["logs"; "manifest.json"]
       = home +:+ "/logs/manifest.json" ∧
     os_path_join home ["target"; "manifest.json"]
       = home +:+ "/target/manifest.json") ∧
  os_path_join home ["logs"; "manifest.json"]
    ≠ os_path_join home ["target"; "manifest.json"].
Proof.
  pose proof (os_path_join_manifest home "logs"
                ltac:(discriminate) eq_refl eq_refl) as Hlogs.
  pose proof (os_path_join_manifest home "target"
                ltac:(discriminate) eq_refl eq_refl) as Htarget.
  split; [apply ends_with_slash_true |]. split; [| split].
  - intros Hcase. rewrite Hlogs, Htarget.
    assert (String.eqb home EmptyString || ends_with_slash home = true) as ->.
    { destruct Hcase as [-> | ->]; [done | apply orb_true_r]. }
    done.
  - intros Hne Hend. rewrite Hlogs, Htarget, Hend.
    assert (String.eqb home EmptyString = false) as ->
      by (by apply String.eqb_neq).
    done.
  - rewrite Hlogs, Htarget.
    destruct (String.eqb home EmptyString || ends_with_slash home).
    + intros H%append_inj_r. discriminate H.
    + intros H%append_inj_r%append_inj_r. discriminate H.
Qed.

Lemma manifest_locations_witness :
  (os_path_join "/project" ["logs"; "manifest.json"]
     = "/project/logs/manifest.json" ∧
   os_path_join "/project" ["target"; "manifest.json"]
     = "/project/target/manifest.json") ∧
  (os_path_join "/project/" ["logs"; "manifest.json"]
     = "/project/logs/manifest.json" ∧
   os_path_join "/project/" ["target"; "manifest.json"]
     = "/project/target/manifest.json").
Proof.
  split.
  - refine (proj1 (proj2 (proj2 (manifest_locations "/project"))) _ _).
    + discriminate.
    + vm_compute. reflexivity.
  - refine (proj1 (proj2 (manifest_locations "/project/")) _).
    right. vm_compute. reflexivity.
Defined.

Lemma show_node_both_table_witness :
  ∃ df : DataFrame,
    show_node sample_world sample_branch sample_production sample_comparator
      (state_inclusion_reasons_by_node sample_comparator
         (included_nodes sample_branch)) "model.a" =
      (both_events sample_world sample_comparator "model.a"
         ["modified"; "modified.body"]
         (sample_node "select 2" "view" 1700000000)
         (sample_node "select 1" "view" 1600000000)
       ++ [st_dataframe df; st_divider], inr tt).
Proof.
  eexists.
  apply (show_node_both_table sample_world sample_branch sample_production
           sample_comparator _ "model.a" _ _ _
           (diffs pair_diff ignore_default
              (to_dict (sample_node "select 2" "view" 1700000000))
              (to_dict (sample_node "select 1" "view" 1600000000)))).
  - vm_compute. reflexivity.
  - vm_compute. reflexivity.
  - vm_compute. reflexivity.
  - vm_compute. reflexivity.
  - vm_compute. reflexivity.
Defined.
